(** * IAPTokenProvider: a shallow embedding of [src/airflow_mcp_iap/iap_auth.py]

    The provider is a Python object with mutable attributes, a
    non-reentrant [threading.Lock], a background thread, and three
    outside collaborators (the OAuth library, the token endpoint reached
    through [requests], the file system).  The embedding threads one
    [State] record through a small monad whose outcomes are: the call
    returned, the call raised, or the call is blocked for good on the lock.
    What the collaborators answer is given by an [Env] of oracles, so every
    theorem below holds whatever the network, the browser and the disk do.
    The clock is read from the state and stands still during a call, except
    in the timed waits of the background thread and of [stop]; what the
    code writes with [print] is left out.

    The callers of the provider, [airflow_http_client.py], [server.py]
    and the authentication of [airflow_tools.py], are embedded after it in
    the same way, over the provider's state. *)

From Stdlib Require Import ZArith String Ascii List Bool Lia.
From Stdlib Require Import DecimalString.
Import ListNotations.

Open Scope string_scope.
Open Scope Z_scope.

(** ** Python strings: [str.lower()] and the [in] operator *)

Module PyStr.

(** [c.lower()] on the ASCII range, which is where the letters of
    ["invalid_grant"] live. *)
Definition lower_ascii (c : ascii) : ascii :=
  let n := nat_of_ascii c in
  if andb (Nat.leb 65 n) (Nat.leb n 90) then ascii_of_nat (n + 32) else c.

Fixpoint lower (s : string) : string :=
  match s with
  | EmptyString => EmptyString
  | String c r => String (lower_ascii c) (lower r)
  end.

(** [needle in hay] *)
Fixpoint contains (needle hay : string) : bool :=
  if String.prefix needle hay then true
  else match hay with
       | EmptyString => false
       | String _ r => contains needle r
       end.

(** Truthiness of an optional string: [None] and the empty string are
    falsy. *)
Definition truthy (o : option string) : bool :=
  match o with
  | Some s => negb (String.eqb s EmptyString)
  | None => false
  end.

Fixpoint join (sep : string) (l : list string) : string :=
  match l with
  | [] => EmptyString
  | [x] => x
  | x :: r => x ++ sep ++ join sep r
  end.

(** [str(list_of_str)]: the [repr] of each element, comma separated;
    [repr] is Python's own rendering of a [str], quotes and escapes. *)
Definition repr_list (repr : string -> string) (l : list string) : string :=
  "[" ++ join ", " (map repr l) ++ "]".

End PyStr.

(** ** Data model *)

(** The fields of [google.oauth2.credentials.Credentials] the provider
    reads and writes.  Times are seconds on the UTC clock, without the
    bounds of Python's [datetime]: the [OverflowError] of date arithmetic
    within minutes of [datetime.min] or [datetime.max] is not modelled. *)
Record Credentials := mkCredentials {
  token : option string;
  refresh_token : option string;
  token_uri : option string;
  client_id : option string;
  client_secret : option string;
  scopes : option (list string);
  expiry : option Z
}.

(** Exceptions: the class name and [str(e)]. *)
Record Exn := mkExn {
  exn_class : string;
  exn_str : string
}.

Definition RuntimeError (msg : string) : Exn := mkExn "RuntimeError" msg.
Definition AttributeError (msg : string) : Exn := mkExn "AttributeError" msg.

(** The cache file [~/.config/airflow-mcp-iap/oauth_token.json]. *)
Inductive FileContent :=
| Json (creds_data : Credentials)   (* the seven keys of [creds_data] *)
| Truncated.                        (* opened for writing, dump not completed *)

Record File := mkFile {
  content : FileContent;
  mode : Z
}.

(** Form fields of a POST to the token endpoint. *)
Record Payload := mkPayload {
  p_client_id : string;
  p_client_secret : string;
  p_refresh_token : option string;
  p_grant_type : string;
  p_audience : option string
}.

(** What [get_token] looks at in a [requests.Response]. *)
Record Response := mkResponse {
  status_code : Z;
  text : string;
  json : option (list (string * string)); (* [None]: [.json()] raises *)
  json_error : Exn;                       (* what [.json()] raises then *)
  http_error : Exn                        (* what [raise_for_status()] raises on 4xx/5xx *)
}.

(** Every interaction with the outside, in the order it happens. *)
Inductive Event :=
| EvConsent                      (* InstalledAppFlow ... run_local_server *)
| EvRenew (c : Credentials)      (* c.refresh(Request()) *)
| EvPost (p : Payload)           (* requests.post(token_endpoint, data=p) *)
| EvSave                         (* mkdir / open / json.dump / chmod *)
| EvUnlink.                      (* _token_cache_file.unlink() *)

(** A trace entry remembers whether [self._lock] was held at that moment. *)
Record Entry := mkEntry {
  held : bool;
  ev : Event
}.

Inductive Level := DEBUG | INFO | WARNING | ERROR.

(** A log record: the level and the text of the call as written in the
    source (placeholders of f-strings are kept as they are). *)
Record LogRecord := mkLog {
  level : Level;
  message : string
}.

(** The background thread as [Thread.join] sees it: alive, with the
    time it still needs to terminate once the stop event is set ([None]:
    it never terminates, e.g. it waits on the lock), or terminated. *)
Inductive ThreadStatus :=
| Alive (eta : option Z)
| Exited.

Record State := mkState {
  (* attributes of the IAPTokenProvider object *)
  iap_client_id : string;
  refresh_interval : Z;
  desktop_client_id : string;
  desktop_client_secret : string;
  _credentials : option Credentials;
  _token_expiry : option Z;
  _lock : bool;                           (* [true]: held *)
  _refresh_thread : option ThreadStatus;
  _stop_refresh : bool;                   (* the threading.Event *)
  (* the world *)
  cache_file : option File;               (* [None]: the file does not exist *)
  utcnow : Z;
  trace : list Entry;
  log : list LogRecord
}.

(** Attribute assignment, one function per attribute that is written. *)
Definition set_credentials (v : option Credentials) (s : State) : State :=
  mkState (iap_client_id s) (refresh_interval s) (desktop_client_id s)
    (desktop_client_secret s) v (_token_expiry s) (_lock s)
    (_refresh_thread s) (_stop_refresh s) (cache_file s) (utcnow s)
    (trace s) (log s).

Definition set_token_expiry (v : option Z) (s : State) : State :=
  mkState (iap_client_id s) (refresh_interval s) (desktop_client_id s)
    (desktop_client_secret s) (_credentials s) v (_lock s)
    (_refresh_thread s) (_stop_refresh s) (cache_file s) (utcnow s)
    (trace s) (log s).

Definition set_lock (v : bool) (s : State) : State :=
  mkState (iap_client_id s) (refresh_interval s) (desktop_client_id s)
    (desktop_client_secret s) (_credentials s) (_token_expiry s) v
    (_refresh_thread s) (_stop_refresh s) (cache_file s) (utcnow s)
    (trace s) (log s).

Definition set_refresh_thread (v : option ThreadStatus) (s : State) : State :=
  mkState (iap_client_id s) (refresh_interval s) (desktop_client_id s)
    (desktop_client_secret s) (_credentials s) (_token_expiry s) (_lock s)
    v (_stop_refresh s) (cache_file s) (utcnow s)
    (trace s) (log s).

Definition set_stop_refresh (v : bool) (s : State) : State :=
  mkState (iap_client_id s) (refresh_interval s) (desktop_client_id s)
    (desktop_client_secret s) (_credentials s) (_token_expiry s) (_lock s)
    (_refresh_thread s) v (cache_file s) (utcnow s)
    (trace s) (log s).

Definition set_cache_file (v : option File) (s : State) : State :=
  mkState (iap_client_id s) (refresh_interval s) (desktop_client_id s)
    (desktop_client_secret s) (_credentials s) (_token_expiry s) (_lock s)
    (_refresh_thread s) (_stop_refresh s) v (utcnow s)
    (trace s) (log s).

Definition set_utcnow (v : Z) (s : State) : State :=
  mkState (iap_client_id s) (refresh_interval s) (desktop_client_id s)
    (desktop_client_secret s) (_credentials s) (_token_expiry s) (_lock s)
    (_refresh_thread s) (_stop_refresh s) (cache_file s) v
    (trace s) (log s).

Definition set_trace (v : list Entry) (s : State) : State :=
  mkState (iap_client_id s) (refresh_interval s) (desktop_client_id s)
    (desktop_client_secret s) (_credentials s) (_token_expiry s) (_lock s)
    (_refresh_thread s) (_stop_refresh s) (cache_file s) (utcnow s)
    v (log s).

Definition set_log (v : list LogRecord) (s : State) : State :=
  mkState (iap_client_id s) (refresh_interval s) (desktop_client_id s)
    (desktop_client_secret s) (_credentials s) (_token_expiry s) (_lock s)
    (_refresh_thread s) (_stop_refresh s) (cache_file s) (utcnow s)
    (trace s) v.

(** ** The collaborators *)

Inductive RefreshReply :=
| RefreshOk (c' : Credentials)     (* the credentials object after the call *)
| RefreshRaises (e : Exn).

Inductive FlowReply :=
| FlowOk (c : Credentials)
| FlowRaises (e : Exn).

Inductive PostReply :=
| PostResponse (r : Response)
| PostRaises (e : Exn).

Inductive ParseReply :=
| ParseOk (c : Credentials)
| ParseRaises (e : Exn).

(** Where [_save_credentials] fails, if it does. *)
Inductive SaveFault :=
| NoFault
| MkdirFails (e : Exn)
| OpenFails (e : Exn)
| DumpFails (e : Exn)
| ChmodFails (e : Exn).

(** Everything that is not code of this repository.  The replies are
    indexed by the number of outside interactions made so far, so that
    two calls of the same kind may be answered differently.  [expired] and
    [valid] are the properties of the google-auth credentials class, read
    at the given clock value. *)
Record Env := mkEnv {
  expired : Credentials -> Z -> bool;
  valid : Credentials -> Z -> bool;
  refresh_reply : nat -> Credentials -> RefreshReply;
  flow_reply : nat -> string -> string -> FlowReply;
  post_reply : nat -> Payload -> PostReply;
  save_fault : nat -> SaveFault;
  parse_reply : Credentials -> ParseReply;  (* Credentials.from_authorized_user_info *)
  create_mode : Z;                          (* mode of a file created by open(.., "w") *)
  repr_str : string -> string               (* repr(s) of a str *)
}.

(** ** The monad of provider code *)

Inductive Outcome (A : Type) : Type :=
| Returned (a : A) (s : State)
| Raised (e : Exn) (s : State)
| Blocked (s : State).   (* waiting on [self._lock], which nobody will release *)

Arguments Returned {A} a s.
Arguments Raised {A} e s.
Arguments Blocked {A} s.

Definition M (A : Type) : Type := State -> Outcome A.

Definition ret {A} (a : A) : M A := fun s => Returned a s.

Definition bind {A B} (m : M A) (k : A -> M B) : M B :=
  fun s =>
    match m s with
    | Returned a s' => k a s'
    | Raised e s' => Raised e s'
    | Blocked s' => Blocked s'
    end.

Notation "x <- m ;; k" := (bind m (fun x => k))
  (at level 61, m at next level, right associativity).
Notation "m ;; k" := (bind m (fun _ => k))
  (at level 61, right associativity).

Definition raise {A} (e : Exn) : M A := fun s => Raised e s.

(** [try: m  except Exception as e: h e] *)
Definition try_except {A} (m : M A) (h : Exn -> M A) : M A :=
  fun s =>
    match m s with
    | Raised e s' => h e s'
    | o => o
    end.

Definition gets {A} (f : State -> A) : M A := fun s => Returned (f s) s.
Definition modify (f : State -> State) : M unit := fun s => Returned tt (f s).

(** [if b: m] *)
Definition when (b : bool) (m : M unit) : M unit := if b then m else ret tt.

(** [with self._lock: body].  A [threading.Lock] is not reentrant:
    acquiring it while it is held waits until the holder releases it.  In
    a run of this model the holder is either the caller itself, further
    up its own call stack, or a call that is itself blocked; in both
    cases the release never comes.  On exit, normal or by exception, the
    lock is released. *)
Definition with_lock {A} (body : M A) : M A :=
  fun s =>
    if _lock s then Blocked s
    else match body (set_lock true s) with
         | Returned a s' => Returned a (set_lock false s')
         | Raised e s' => Raised e (set_lock false s')
         | Blocked s' => Blocked s'
         end.

(** Number of outside interactions so far: the index of the next reply. *)
Definition calls (s : State) : nat := length (trace s).

Definition emit (e : Event) : M unit :=
  modify (fun s => set_trace (trace s ++ [mkEntry (_lock s) e]) s).

Definition logger (l : Level) (msg : string) : M unit :=
  modify (fun s => set_log (log s ++ [mkLog l msg]) s).

(** [self._credentials.<attr>]: attribute access on [None] raises. *)
Definition the_credentials : M Credentials :=
  c <- gets _credentials ;;
  match c with
  | Some c => ret c
  | None => raise (AttributeError "'NoneType' object has no attribute")
  end.

Definition is_none {A} (o : option A) : bool :=
  match o with None => true | Some _ => false end.

Definition is_some {A} (o : option A) : bool := negb (is_none o).

(** ** The methods of [IAPTokenProvider] *)

Section Provider.

Variable env : Env.

(** *** Calls into the collaborators *)

(** [self._credentials.refresh(Request())] *)
Definition credentials_refresh : M unit :=
  c <- the_credentials ;;
  n <- gets calls ;;
  emit (EvRenew c) ;;
  match refresh_reply env n c with
  | RefreshOk c' => modify (set_credentials (Some c'))
  | RefreshRaises e => raise e
  end.

(** [InstalledAppFlow.from_client_config(..).run_local_server(..)] *)
Definition run_local_server : M Credentials :=
  n <- gets calls ;;
  cid <- gets desktop_client_id ;;
  sec <- gets desktop_client_secret ;;
  emit EvConsent ;;
  match flow_reply env n cid sec with
  | FlowOk c => ret c
  | FlowRaises e => raise e
  end.

(** [requests.post(token_endpoint, data=p)] *)
Definition requests_post (p : Payload) : M Response :=
  n <- gets calls ;;
  emit (EvPost p) ;;
  match post_reply env n p with
  | PostResponse r => ret r
  | PostRaises e => raise e
  end.

(** [response.raise_for_status()] *)
Definition raise_for_status (r : Response) : M unit :=
  if (400 <=? status_code r) && (status_code r <? 600)
  then raise (http_error r)
  else ret tt.

(** [response.json()] *)
Definition response_json (r : Response) : M (list (string * string)) :=
  match json r with
  | Some d => ret d
  | None => raise (json_error r)
  end.

(** [k in d] and [d[k]] on the decoded response *)
Fixpoint dict_get (k : string) (d : list (string * string)) : option string :=
  match d with
  | [] => None
  | (k', v) :: r => if String.eqb k k' then Some v else dict_get k r
  end.

(** [self._token_cache_file.unlink()], always guarded by [exists()] in
    the source; removing a file that exists is taken to succeed.  (The
    source protects neither call: a deletion that fails would raise out of
    [clear_cache] before the credential is dropped, and out of the handler
    of [_refresh_token] after it is dropped.) *)
Definition unlink : M unit :=
  emit EvUnlink ;;
  modify (set_cache_file None).

(** *** [_save_credentials] *)

Definition _save_credentials : M unit :=
  try_except
    (n <- gets calls ;;
     emit EvSave ;;
     let fault := save_fault env n in
     (* self._token_cache_dir.mkdir(parents=True, exist_ok=True) *)
     match fault with MkdirFails e => raise e | _ => ret tt end ;;
     (* creds_data = {"token": self._credentials.token, ...} *)
     c <- the_credentials ;;
     (* with open(self._token_cache_file, "w") as f: *)
     match fault with OpenFails e => raise e | _ => ret tt end ;;
     old <- gets cache_file ;;
     let m := match old with Some f => mode f | None => create_mode env end in
     modify (set_cache_file (Some (mkFile Truncated m))) ;;
     (*     json.dump(creds_data, f, indent=2) *)
     match fault with DumpFails e => raise e | _ => ret tt end ;;
     modify (set_cache_file (Some (mkFile (Json c) m))) ;;
     (* self._token_cache_file.chmod(0o600) *)
     match fault with ChmodFails e => raise e | _ => ret tt end ;;
     modify (set_cache_file (Some (mkFile (Json c) 384))) ;;
     logger INFO "Saved credentials to {self._token_cache_file}")
    (fun e => logger ERROR "Failed to save credentials: {e}").

(** *** [_update_expiry_from_credentials] *)

Definition _update_expiry_from_credentials : M unit :=
  c <- gets _credentials ;;
  match c with
  | Some (mkCredentials _ _ _ _ _ _ (Some e)) =>
      modify (set_token_expiry (Some e))
  | _ =>
      now <- gets utcnow ;;
      modify (set_token_expiry (Some (now + 3600)))
  end.

(** *** [_perform_oauth_flow] *)

Definition _perform_oauth_flow : M unit :=
  try_except
    (logger INFO "Opening browser for OAuth authentication..." ;;
     c <- run_local_server ;;
     modify (set_credentials (Some c)) ;;
     _save_credentials ;;
     _update_expiry_from_credentials ;;
     logger INFO "OAuth flow completed successfully")
    (fun e =>
       logger ERROR "OAuth flow failed: {e}" ;;
       raise (RuntimeError
                ("Failed to authenticate with Google. Error: " ++ exn_str e))).

(** *** [_refresh_token] *)

Definition _refresh_token : M unit :=
  with_lock
    (try_except
       (c <- gets _credentials ;;
        match c with
        | None => logger ERROR "No credentials available"
        | Some c =>
            now <- gets utcnow ;;
            if valid env c now then
              logger DEBUG "Token is still valid, no refresh needed"
            else if negb (PyStr.truthy (refresh_token c)) then
              logger WARNING
                "No refresh token available, re-authentication required" ;;
              _perform_oauth_flow
            else
              logger INFO "Refreshing OAuth token..." ;;
              credentials_refresh ;;
              _save_credentials ;;
              _update_expiry_from_credentials ;;
              logger INFO
                "Token refreshed successfully, expires at {self._token_expiry}"
        end)
       (fun e =>
          logger ERROR "Token refresh failed: {e}" ;;
          when (PyStr.contains "invalid_grant" (PyStr.lower (exn_str e)))
            (logger WARNING
               "Refresh token is invalid, re-authentication required" ;;
             modify (set_credentials None) ;;
             f <- gets cache_file ;;
             when (is_some f) unlink))).

(** *** [get_token] *)

Definition token_endpoint : string := "https://oauth2.googleapis.com/token".

(** The [try:] block of [get_token]: the audience exchange. *)
Definition get_token_exchange : M string :=
  c <- the_credentials ;;
  cid <- gets desktop_client_id ;;
  sec <- gets desktop_client_secret ;;
  aud <- gets iap_client_id ;;
  let payload :=
    mkPayload cid sec (refresh_token c) "refresh_token" (Some aud) in
  logger DEBUG "Requesting ID token for IAP audience: {self.iap_client_id}" ;;
  response <- requests_post payload ;;
  response <-
    (if negb (status_code response =? 200) then
       logger ERROR
         "Token endpoint returned {response.status_code}: {response.text}" ;;
       logger WARNING
         "Attempting token request without audience parameter..." ;;
       let payload_no_aud :=
         mkPayload cid sec (refresh_token c) "refresh_token" None in
       response <- requests_post payload_no_aud ;;
       raise_for_status response ;;
       ret response
     else ret response) ;;
  token_response <- response_json response ;;
  match dict_get "id_token" token_response with
  | Some id_token =>
      logger DEBUG "Successfully obtained ID token from token endpoint" ;;
      ret id_token
  | None =>
      logger ERROR
        "Token response missing id_token: {list(token_response.keys())}" ;;
      raise (RuntimeError
               ("Token endpoint did not return an ID token. "
                ++ "Response fields: "
                ++ PyStr.repr_list (repr_str env) (map fst token_response)))
  end.

Definition get_token : M string :=
  with_lock
    (c <- gets _credentials ;;
     when (is_none c)
       (logger INFO "No credentials available, performing OAuth flow..." ;;
        _perform_oauth_flow) ;;
     (* if self._credentials.expired: *)
     c <- the_credentials ;;
     now <- gets utcnow ;;
     when (expired env c now)
       (logger INFO "Token expired, refreshing..." ;;
        _refresh_token) ;;
     (* if self._token_expiry and utcnow() >= self._token_expiry - 300s: *)
     te <- gets _token_expiry ;;
     now <- gets utcnow ;;
     when (match te with Some e => now >=? e - 300 | None => false end)
       (logger INFO "Token about to expire, refreshing..." ;;
        _refresh_token) ;;
     c <- gets _credentials ;;
     if match c with
        | None => true
        | Some c => negb (PyStr.truthy (token c))
        end
     then raise (RuntimeError "Failed to obtain valid credentials")
     else
       try_except get_token_exchange
         (fun e =>
            logger ERROR "Failed to obtain IAP ID token: {e}" ;;
            raise (RuntimeError
                     ("Failed to obtain IAP ID token for user credentials. "
                      ++ "This might indicate IAP is not properly configured or the OAuth "
                      ++ "client doesn't have the required permissions. Error: "
                      ++ exn_str e)))).

(** *** [clear_cache] *)

Definition clear_cache : M unit :=
  with_lock
    (f <- gets cache_file ;;
     when (is_some f)
       (unlink ;;
        logger INFO "Cleared cached credentials") ;;
     modify (set_credentials None)).

(** *** [_load_cached_credentials] and [_initialize_credentials] *)

Definition _load_cached_credentials : M bool :=
  f <- gets cache_file ;;
  match f with
  | None => ret false
  | Some f =>
      try_except
        (creds_data <-
           match content f with
           | Json d => ret d
           | Truncated => raise (mkExn "JSONDecodeError" "Expecting value")
           end ;;
         c <-
           match parse_reply env creds_data with
           | ParseOk c => ret c
           | ParseRaises e => raise e
           end ;;
         modify (set_credentials (Some c)) ;;
         now <- gets utcnow ;;
         if valid env c now then
           _update_expiry_from_credentials ;;
           ret true
         else if expired env c now && PyStr.truthy (refresh_token c) then
           logger INFO "Cached credentials expired, attempting refresh..." ;;
           credentials_refresh ;;
           _save_credentials ;;
           _update_expiry_from_credentials ;;
           ret true
         else
           logger WARNING
             "Cached credentials are invalid and cannot be refreshed" ;;
           ret false)
        (fun e =>
           logger ERROR "Failed to load cached credentials: {e}" ;;
           ret false)
  end.

Definition _initialize_credentials : M unit :=
  with_lock
    (loaded <- _load_cached_credentials ;;
     if loaded then logger INFO "Loaded cached OAuth credentials"
     else
       logger INFO "No cached credentials found, starting OAuth flow..." ;;
       _perform_oauth_flow).

(** *** The background thread: [_refresh_loop], [_start_refresh_thread], [stop] *)

(** [self._stop_refresh.wait(timeout=t)]: returns [True] at once when the
    event is set; otherwise the caller sleeps for [t] seconds and gets
    [False].  (In a sequential run nobody sets the event during the
    sleep.) *)
Definition event_wait (t : Z) : M bool :=
  stopped <- gets _stop_refresh ;;
  if stopped then ret true
  else
    now <- gets utcnow ;;
    modify (set_utcnow (now + Z.max 0 t)) ;;
    ret false.

(** How a bounded run of the loop ended. *)
Inductive LoopEnd :=
| LoopExited     (* the [while] was left *)
| LoopRunning.   (* still looping when the iteration budget ran out *)

Fixpoint _refresh_loop (iterations : nat) : M LoopEnd :=
  match iterations with
  | O => ret LoopRunning
  | S n =>
      stopped <- gets _stop_refresh ;;
      if stopped then ret LoopExited
      else
        interval <- gets refresh_interval ;;
        signalled <- event_wait interval ;;
        if signalled then ret LoopExited
        else
          try_except _refresh_token
            (fun e => logger ERROR "Background token refresh failed: {e}") ;;
          _refresh_loop n
  end.

(** The new thread starts in the interruptible wait of its first
    iteration: once the event is set it needs no time to terminate. *)
Definition _start_refresh_thread : M unit :=
  modify (set_refresh_thread (Some (Alive (Some 0)))) ;;
  logger INFO "Started background token refresh thread".

(** [self._refresh_thread.join(timeout=t)], as [stop] calls it: after
    the event has been set.  The caller waits until the thread has
    terminated or [t] seconds have passed, whichever comes first. *)
Definition thread_join (t : Z) : M unit :=
  th <- gets _refresh_thread ;;
  now <- gets utcnow ;;
  match th with
  | None => raise (AttributeError "'NoneType' object has no attribute 'join'")
  | Some Exited => ret tt
  | Some (Alive None) => modify (set_utcnow (now + t))
  | Some (Alive (Some d)) =>
      if d <=? t then
        modify (set_utcnow (now + Z.max 0 d)) ;;
        modify (set_refresh_thread (Some Exited))
      else
        modify (set_utcnow (now + t)) ;;
        modify (set_refresh_thread (Some (Alive (Some (d - t)))))
  end.

Definition stop : M unit :=
  modify (set_stop_refresh true) ;;
  th <- gets _refresh_thread ;;
  when (is_some th)
    (thread_join 5 ;;
     logger INFO "Stopped background token refresh thread").

(** *** [__init__]

    [getenv_id] and [getenv_secret] are what [os.getenv] finds for
    IAP_DESKTOP_CLIENT_ID and IAP_DESKTOP_CLIENT_SECRET.  The state the
    constructor starts from carries the world (cache file, clock); its
    attribute fields are overwritten. *)

Definition DEFAULT_DESKTOP_CLIENT_ID : string :=
  "764086051850-6qr4p6gpi6hn506pt8ejuq83di341hur.apps.googleusercontent.com".

Definition DEFAULT_DESKTOP_CLIENT_SECRET : string := "d-FL95Q19q7MQmFpd7hHD0Ty".

Definition getenv (v : option string) (default : string) : string :=
  match v with
  | Some x => x
  | None => default
  end.

Definition __init__ (iap_client_id : string) (refresh_interval : Z)
    (getenv_id getenv_secret : option string) : M unit :=
  modify (fun w =>
            mkState iap_client_id refresh_interval
              (getenv getenv_id DEFAULT_DESKTOP_CLIENT_ID)
              (getenv getenv_secret DEFAULT_DESKTOP_CLIENT_SECRET)
              None None false None false
              (cache_file w) (utcnow w) (trace w) (log w)) ;;
  (if is_some getenv_id then
     logger INFO
       "Using custom Desktop OAuth client for IAP-compatible ID tokens"
   else
     logger WARNING
       ("Using default Google Cloud SDK OAuth client. "
        ++ "For full IAP compatibility, set IAP_DESKTOP_CLIENT_ID and "
        ++ "IAP_DESKTOP_CLIENT_SECRET environment variables to a Desktop "
        ++ "OAuth client from the same GCP project as the IAP client.")) ;;
  _initialize_credentials ;;
  _start_refresh_thread.

End Provider.

(** ** Observations on outcomes *)

Definition final {A} (o : Outcome A) : State :=
  match o with
  | Returned _ s => s
  | Raised _ s => s
  | Blocked s => s
  end.

Definition events (s : State) : list Event := map ev (trace s).

(** The trace entries added between [s] and a later state [s']. *)
Definition added (s s' : State) : list Entry :=
  skipn (length (trace s)) (trace s').

Definition is_renew (e : Event) : bool :=
  match e with EvRenew _ => true | _ => false end.

Definition is_consent (e : Event) : bool :=
  match e with EvConsent => true | _ => false end.

Definition is_post (e : Event) : bool :=
  match e with EvPost _ => true | _ => false end.


Definition count (p : Event -> bool) (l : list Entry) : nat :=
  length (filter p (map ev l)).

(** google-auth's own [expired] and [valid], with the library's refresh
    threshold as a parameter: a token counts as expired [threshold]
    seconds before its expiry, and credentials without an expiry never
    expire. *)
Definition google_expired (threshold : Z) (c : Credentials) (now : Z) : bool :=
  match expiry c with
  | Some e => now >=? e - threshold
  | None => false
  end.

Definition google_valid (threshold : Z) (c : Credentials) (now : Z) : bool :=
  is_some (token c) && negb (google_expired threshold c now).

(** ** Lock discipline

    [under_lock m]: run with the lock held, [m] keeps it held, and every
    interaction it has with the outside is made under the lock. *)

Definition all_held (l : list Entry) : Prop :=
  Forall (fun x => held x = true) l.

Definition under_lock {A} (m : M A) : Prop :=
  forall s, _lock s = true ->
    _lock (final (m s)) = true
    /\ exists new, (trace (final (m s)) = trace s ++ new)%list /\ all_held new.

(** The payloads of the two requests of the audience exchange. *)
Definition exchange_payload (s : State) (c : Credentials)
    (audience : option string) : Payload :=
  mkPayload (desktop_client_id s) (desktop_client_secret s)
    (refresh_token c) "refresh_token" audience.

(** ** Concurrent callers of [get_token]

    A caller has arrived and not yet obtained the lock, or has finished
    (with a token or an exception), or is blocked for good inside the
    call. *)
Inductive Caller :=
| Arrived
| Finished (r : string + Exn)
| Hung.

Definition caller_after (o : Outcome string) : Caller :=
  match o with
  | Returned t _ => Finished (inl t)
  | Raised e _ => Finished (inr e)
  | Blocked _ => Hung
  end.

Fixpoint replace_nth {A} (i : nat) (x : A) (l : list A) : list A :=
  match l, i with
  | [], _ => []
  | _ :: r, O => x :: r
  | y :: r, S j => y :: replace_nth j x r
  end.

(** The provider shared by the callers. *)
Record Pool := mkPool {
  shared : State;
  callers : list Caller
}.

(** One scheduling step.  The body of [get_token] is one [with
    self._lock:] block, so between the moment a caller obtains the lock
    and the moment it leaves the block (or blocks in it) no other caller
    runs: a step is a caller that has arrived finding the lock free and
    running its whole call.  A caller that finds the lock held does not
    move. *)
Inductive pool_step (env : Env) : Pool -> Pool -> Prop :=
| caller_runs (i : nat) (s : State) (cs : list Caller) :
    nth_error cs i = Some Arrived ->
    _lock s = false ->
    pool_step env (mkPool s cs)
      (mkPool (final (get_token env s))
              (replace_nth i (caller_after (get_token env s)) cs)).

(** Any number of steps, in any order of the callers. *)
Inductive pool_run (env : Env) : Pool -> Pool -> Prop :=
| run_done p : pool_run env p p
| run_step p q r : pool_step env p q -> pool_run env q r -> pool_run env p r.

(** ** The specification's wording, for the claims the code does not meet *)

Module Spec.

(** "The provider rejects the request specifically because it does not
    support the audience parameter": a non-200 answer whose body talks
    about the audience. *)
Definition audience_unsupported (r : Response) : bool :=
  negb (status_code r =? 200)
  && PyStr.contains "audience" (PyStr.lower (text r)).

(** "The retry without the audience parameter is performed only when the
    provider rejects the request specifically because it does not
    support the audience parameter." *)
Definition retry_only_on_audience_rejection (env : Env) (s : State)
    (c : Credentials) : Prop :=
  In (EvPost (exchange_payload s c None))
     (events (final (get_token env s))) ->
  exists r,
    post_reply env (calls s)
      (exchange_payload s c (Some (iap_client_id s))) = PostResponse r
    /\ audience_unsupported r = true.

(** "An invalid refresh token": the test the code applies to [str(e)]. *)
Definition invalid_grant (e : Exn) : bool :=
  PyStr.contains "invalid_grant" (PyStr.lower (exn_str e)).

(** "A failed renewal call is surfaced to the immediate caller as a
    failure of that call": the operation that made the call raises. *)
Definition surfaced {A} (o : Outcome A) : Prop :=
  exists e s', o = Raised e s'.

(** "After an invalid-grant rejection the in-memory credential is absent
    and the on-disk cache file is absent." *)
Definition fully_invalidated (s : State) : Prop :=
  _credentials s = None /\ cache_file s = None.

End Spec.

(** ** Sample providers and environments *)

Module Sample.

Definition creds (tok : option string) (exp : option Z) : Credentials :=
  mkCredentials tok (Some "1//refresh") (Some token_endpoint)
    (Some "desktop-id.apps.googleusercontent.com") (Some "desktop-secret")
    (Some ["openid"; "https://www.googleapis.com/auth/userinfo.email"]) exp.

(** A provider between two calls: lock free, thread in its wait. *)
Definition provider (c : option Credentials) (te : option Z) (now : Z)
    (f : option File) : State :=
  mkState "iap-client.apps.googleusercontent.com" 3000
    "desktop-id.apps.googleusercontent.com" "desktop-secret"
    c te false (Some (Alive (Some 0))) false f now [] [].

Definition response (status : Z) (body : string)
    (fields : option (list (string * string))) : Response :=
  mkResponse status body fields
    (mkExn "JSONDecodeError" "Expecting value")
    (mkExn "HTTPError" "Error for url: https://oauth2.googleapis.com/token").

(** google-auth with its refresh threshold of 3 min 45 s. *)
Definition env (rr : nat -> Credentials -> RefreshReply)
    (fr : nat -> FlowReply) (pr : nat -> Payload -> PostReply)
    (sf : nat -> SaveFault) : Env :=
  mkEnv (google_expired 225) (google_valid 225) rr
    (fun n _ _ => fr n) pr sf ParseOk 420 (fun k => "'" ++ k ++ "'").

Definition transport_error : Exn :=
  mkExn "TransportError" "HTTPSConnectionPool: Max retries exceeded".

Definition refresh_error : Exn :=
  mkExn "RefreshError"
    "('invalid_grant: Token has been expired or revoked.', {'error': 'invalid_grant'})".

Definition disk_full : Exn := mkExn "OSError" "[Errno 28] No space left on device".

Definition consent_aborted : Exn := mkExn "AccessDeniedError" "access_denied".

Definition id_token_reply : PostReply :=
  PostResponse (response 200 "{..}" (Some [("access_token", "ya29.new");
                                           ("id_token", "eyJ.id.token")])).

Definition unavailable_reply : PostReply :=
  PostResponse (response 503 "Service Unavailable" None).

(** An environment in which everything works. *)
Definition fair : Env :=
  env (fun _ c => RefreshOk (creds (Some "ya29.renewed") (Some 9000)))
      (fun _ => FlowOk (creds (Some "ya29.granted") (Some 9000)))
      (fun _ _ => id_token_reply)
      (fun _ => NoFault).

(** The token endpoint answers 503 to the first request of the exchange. *)
Definition flaky : Env :=
  env (fun _ c => RefreshOk (creds (Some "ya29.renewed") (Some 9000)))
      (fun _ => FlowOk (creds (Some "ya29.granted") (Some 9000)))
      (fun n _ => match n with O => unavailable_reply | _ => id_token_reply end)
      (fun _ => NoFault).

(** Renewal fails on the transport. *)
Definition offline : Env :=
  env (fun _ _ => RefreshRaises transport_error)
      (fun _ => FlowRaises transport_error)
      (fun _ _ => PostRaises transport_error)
      (fun _ => NoFault).

(** The provider has revoked the refresh token; the user then declines
    to consent again. *)
Definition revoked : Env :=
  env (fun _ _ => RefreshRaises refresh_error)
      (fun _ => FlowRaises consent_aborted)
      (fun _ _ => id_token_reply)
      (fun _ => NoFault).

(** The disk is full: every save fails while dumping. *)
Definition full_disk : Env :=
  env (fun _ c => RefreshOk (creds (Some "ya29.renewed") (Some 9000)))
      (fun _ => FlowOk (creds (Some "ya29.granted") (Some 9000)))
      (fun _ _ => id_token_reply)
      (fun _ => DumpFails disk_full).

(** Credential expiring at 1000, seen at 720: inside the 5-minute
    margin, not yet expired for google-auth. *)
Definition near_expiry : State :=
  provider (Some (creds (Some "ya29.access") (Some 1000))) (Some 1000) 720
    (Some (mkFile (Json (creds (Some "ya29.access") (Some 1000))) 384)).

(** The same credential seen at 100: fresh. *)
Definition fresh : State :=
  provider (Some (creds (Some "ya29.access") (Some 1000))) (Some 1000) 100
    (Some (mkFile (Json (creds (Some "ya29.access") (Some 1000))) 384)).

(** The same credential seen at 2000: expired. *)
Definition stale : State :=
  provider (Some (creds (Some "ya29.access") (Some 1000))) (Some 1000) 2000
    (Some (mkFile (Json (creds (Some "ya29.access") (Some 1000))) 384)).

(** A process start: nothing in memory, an expired record on disk. *)
Definition at_start : State :=
  provider None None 2000
    (Some (mkFile (Json (creds (Some "ya29.access") (Some 1000))) 384)).

(** A fresh credential without an access token. *)
Definition tokenless : State :=
  provider (Some (creds None (Some 1000))) (Some 1000) 100 None.

End Sample.

(** * The Airflow client and the MCP server

    [airflow_http_client.py] and [server.py]: the callers of
    [IAPTokenProvider.get_token]. *)

(** ** Python values *)

(** What [json] decoding and the MCP layer hand to the code.  A float
    carries what [str()] shows for it and whether it is non-zero. *)
#[warnings="-register-all"]
Inductive Value :=
| VNone
| VBool (b : bool)
| VInt (z : Z)
| VFloat (shown : string) (nonzero : bool)
| VStr (s : string)
| VList (l : list Value)
| VDict (d : list (string * Value)).

Module PyVal.

(** Truthiness: [if v:], [v or d], [not v]. *)
Definition truthy (v : Value) : bool :=
  match v with
  | VNone => false
  | VBool b => b
  | VInt z => negb (z =? 0)
  | VFloat _ nz => nz
  | VStr s => negb (String.eqb s EmptyString)
  | VList l => match l with [] => false | _ => true end
  | VDict d => match d with [] => false | _ => true end
  end.

Definition decimal (z : Z) : string := NilZero.string_of_int (Z.to_int z).

(** [str(v)], as an f-string formats it; [repr] is Python's own
    rendering of lists and dicts. *)
Definition str (repr : Value -> string) (v : Value) : string :=
  match v with
  | VNone => "None"
  | VBool true => "True"
  | VBool false => "False"
  | VInt z => decimal z
  | VFloat shown _ => shown
  | VStr s => s
  | VList _ | VDict _ => repr v
  end.

(** [d.get(k)] on the items of a dict. *)
Fixpoint lookup (k : string) (d : list (string * Value)) : option Value :=
  match d with
  | [] => None
  | (k', v) :: r => if String.eqb k k' then Some v else lookup k r
  end.

(** [s.rstrip("/")] *)
Fixpoint rstrip_slash (s : string) : string :=
  match s with
  | EmptyString => EmptyString
  | String c r =>
      match rstrip_slash r with
      | EmptyString => if Ascii.eqb c "/" then EmptyString
                       else String c EmptyString
      | r' => String c r'
      end
  end.

Fixpoint ends_with_slash (s : string) : bool :=
  match s with
  | EmptyString => false
  | String c EmptyString => Ascii.eqb c "/"
  | String _ r => ends_with_slash r
  end.

End PyVal.

(** ** Programs over any state: return, raise, or never come back *)

Inductive Res (S A : Type) : Type :=
| Ok (a : A) (s : S)
| Err (e : Exn) (s : S)
| Stuck (s : S).

Arguments Ok {S A} a s.
Arguments Err {S A} e s.
Arguments Stuck {S A} s.

Definition Prog (S A : Type) : Type := S -> Res S A.

Definition pret {S A} (a : A) : Prog S A := fun s => Ok a s.

Definition pbind {S A B} (m : Prog S A) (k : A -> Prog S B) : Prog S B :=
  fun s =>
    match m s with
    | Ok a s' => k a s'
    | Err e s' => Err e s'
    | Stuck s' => Stuck s'
    end.

Notation "x <~ m ;; k" := (pbind m (fun x => k))
  (at level 61, m at next level, right associativity).
Notation "m ;;; k" := (pbind m (fun _ => k))
  (at level 61, right associativity).

Definition praise {S A} (e : Exn) : Prog S A := fun s => Err e s.

Definition ptry {S A} (m : Prog S A) (h : Exn -> Prog S A) : Prog S A :=
  fun s =>
    match m s with
    | Err e s' => h e s'
    | o => o
    end.

Definition pgets {S A} (f : S -> A) : Prog S A := fun s => Ok (f s) s.
Definition pmodify {S} (f : S -> S) : Prog S unit := fun s => Ok tt (f s).
Definition pwhen {S} (b : bool) (m : Prog S unit) : Prog S unit :=
  if b then m else pret tt.

Definition res_state {S A} (r : Res S A) : S :=
  match r with
  | Ok _ s => s
  | Err _ s => s
  | Stuck s => s
  end.

(** ** [AirflowHTTPClient] *)

(** One call of [httpx.post] or [httpx.request]. *)
Record HttpCall := mkCall {
  h_method : string;
  h_url : string;
  h_headers : list (string * string);
  h_json : option Value;      (* the [json=] keyword, when given *)
  h_after : nat               (* provider interactions made before it *)
}.

Record HttpResponse := mkHttpResponse {
  status_error : option Exn;  (* what [raise_for_status()] raises, if it does *)
  body : option Value;        (* [None]: [.json()] raises *)
  body_error : Exn            (* what [.json()] raises then *)
}.

Inductive HttpReply :=
| Responded (r : HttpResponse)
| HttpFails (e : Exn).

Record Client := mkClient {
  airflow_host : string;
  token_provider : State;     (* the IAPTokenProvider, with its world *)
  airflow_username : string;
  airflow_password : string;
  _airflow_jwt_token : Value;
  sent : list HttpCall;
  client_log : list LogRecord
}.

Definition set_provider (v : State) (c : Client) : Client :=
  mkClient (airflow_host c) v (airflow_username c) (airflow_password c)
    (_airflow_jwt_token c) (sent c) (client_log c).

Definition set_jwt (v : Value) (c : Client) : Client :=
  mkClient (airflow_host c) (token_provider c) (airflow_username c)
    (airflow_password c) v (sent c) (client_log c).

Definition set_sent (v : list HttpCall) (c : Client) : Client :=
  mkClient (airflow_host c) (token_provider c) (airflow_username c)
    (airflow_password c) (_airflow_jwt_token c) v (client_log c).

Definition set_client_log (v : list LogRecord) (c : Client) : Client :=
  mkClient (airflow_host c) (token_provider c) (airflow_username c)
    (airflow_password c) (_airflow_jwt_token c) (sent c) v.

(** What is not code of this repository, for the client and the server:
    the provider's collaborators, the Airflow host behind [httpx]
    (replies indexed by the number of calls sent so far), and three
    renderings that are Python's own. *)
Record HttpEnv := mkHttpEnv {
  auth_env : Env;
  httpx_reply : nat -> HttpCall -> HttpReply;
  json_dumps : Value -> string;              (* json.dumps(v, indent=2, default=str) *)
  py_repr : Value -> string;                 (* repr of a list or dict *)
  not_subscriptable : Value -> Exn;          (* v["k"] on something that is no dict *)
  no_attribute : Value -> string -> Exn      (* v.name where v has no such attribute *)
}.

Definition KeyError (k : string) : Exn := mkExn "KeyError" ("'" ++ k ++ "'").
Definition ValueError (msg : string) : Exn := mkExn "ValueError" msg.

Section Client.

Variable henv : HttpEnv.

(** [self.token_provider.get_token()] *)
Definition provider_get_token : Prog Client string :=
  fun c =>
    match get_token (auth_env henv) (token_provider c) with
    | Returned t s => Ok t (set_provider s c)
    | Raised e s => Err e (set_provider s c)
    | Blocked s => Stuck (set_provider s c)
    end.

(** [httpx.request(method, url, headers=.., timeout=30.0, json=..)] *)
Definition httpx_request (method url : string)
    (headers : list (string * string)) (js : option Value)
    : Prog Client HttpResponse :=
  n <~ pgets (fun c => length (sent c)) ;;
  seen <~ pgets (fun c => calls (token_provider c)) ;;
  let call := mkCall method url headers js seen in
  pmodify (fun c => set_sent (sent c ++ [call]) c) ;;;
  match httpx_reply henv n call with
  | Responded r => pret r
  | HttpFails e => praise e
  end.

(** [response.raise_for_status()] *)
Definition http_raise_for_status (r : HttpResponse) : Prog Client unit :=
  match status_error r with
  | Some e => praise e
  | None => pret tt
  end.

(** [response.json()] *)
Definition http_json (r : HttpResponse) : Prog Client Value :=
  match body r with
  | Some v => pret v
  | None => praise (body_error r)
  end.

(** [v[k]] *)
Definition subscript {S} (v : Value) (k : string) : Prog S Value :=
  match v with
  | VDict d =>
      match PyVal.lookup k d with
      | Some x => pret x
      | None => praise (KeyError k)
      end
  | _ => praise (not_subscriptable henv v)
  end.

Definition client_logger (l : Level) (msg : string) : Prog Client unit :=
  pmodify (fun c => set_client_log (client_log c ++ [mkLog l msg]) c).

Definition _refresh_airflow_jwt : Prog Client unit :=
  iap_token <~ provider_get_token ;;
  host <~ pgets airflow_host ;;
  username <~ pgets airflow_username ;;
  password <~ pgets airflow_password ;;
  response <~ httpx_request "POST" (host ++ "/auth/token")
                [("Authorization", "Bearer " ++ iap_token)]
                (Some (VDict [("username", VStr username);
                              ("password", VStr password)])) ;;
  http_raise_for_status response ;;;
  data <~ http_json response ;;
  access_token <~ subscript data "access_token" ;;
  pmodify (set_jwt access_token) ;;;
  client_logger INFO "Obtained Airflow JWT token".

Definition _get_headers : Prog Client (list (string * string)) :=
  jwt <~ pgets _airflow_jwt_token ;;
  pwhen (negb (PyVal.truthy jwt)) _refresh_airflow_jwt ;;;
  jwt <~ pgets _airflow_jwt_token ;;
  iap_token <~ provider_get_token ;;
  pret [("Authorization", "Bearer " ++ PyVal.str (py_repr henv) jwt);
        ("Proxy-Authorization", "Bearer " ++ iap_token);
        ("Content-Type", "application/json")].

Definition _request (method path : string) (js : option Value)
    : Prog Client Value :=
  host <~ pgets airflow_host ;;
  let url := host ++ path in
  headers <~ _get_headers ;;
  response <~ httpx_request method url headers js ;;
  http_raise_for_status response ;;;
  http_json response.

(** [AirflowHTTPClient.__init__]; [username] and [password] are
    [Optional[str]]. *)
Definition client_init (airflow_host : string) (token_provider : State)
    (airflow_username airflow_password : option string)
    : Res Client unit :=
  let or_empty (o : option string) :=
    match o with
    | Some s => s
    | None => EmptyString
    end in
  _refresh_airflow_jwt
    (mkClient (PyVal.rstrip_slash airflow_host) token_provider
       (or_empty airflow_username) (or_empty airflow_password)
       VNone [] []).

Definition fmt (v : Value) : string := PyVal.str (py_repr henv) v.

(* Health and monitoring *)
Definition get_health : Prog Client Value :=
  _request "GET" "/api/v2/monitor/health" None.

Definition get_version : Prog Client Value :=
  _request "GET" "/api/v2/version" None.

(* DAG operations *)
Definition list_dags (limit offset : Value) : Prog Client Value :=
  _request "GET"
    ("/api/v2/dags?limit=" ++ fmt limit ++ "&offset=" ++ fmt offset) None.

Definition get_dag (dag_id : Value) : Prog Client Value :=
  _request "GET" ("/api/v2/dags/" ++ fmt dag_id) None.

Definition pause_dag (dag_id : Value) : Prog Client Value :=
  _request "PATCH" ("/api/v2/dags/" ++ fmt dag_id)
    (Some (VDict [("is_paused", VBool true)])).

Definition unpause_dag (dag_id : Value) : Prog Client Value :=
  _request "PATCH" ("/api/v2/dags/" ++ fmt dag_id)
    (Some (VDict [("is_paused", VBool false)])).

(* DAG Run operations *)
Definition list_dag_runs (dag_id limit offset : Value) : Prog Client Value :=
  _request "GET"
    ("/api/v2/dags/" ++ fmt dag_id ++ "/dagRuns?limit=" ++ fmt limit
     ++ "&offset=" ++ fmt offset) None.

Definition get_dag_run (dag_id dag_run_id : Value) : Prog Client Value :=
  _request "GET"
    ("/api/v2/dags/" ++ fmt dag_id ++ "/dagRuns/" ++ fmt dag_run_id) None.

Definition trigger_dag (dag_id conf logical_date : Value)
    : Prog Client Value :=
  let payload : list (string * Value) := [] in
  let payload := if PyVal.truthy conf
                 then (payload ++ [("conf", conf)])%list else payload in
  let payload := if PyVal.truthy logical_date
                 then (payload ++ [("logical_date", logical_date)])%list
                 else payload in
  _request "POST" ("/api/v2/dags/" ++ fmt dag_id ++ "/dagRuns")
    (Some (VDict payload)).

(* Task instance operations *)
Definition get_task_instance (dag_id dag_run_id task_id : Value)
    : Prog Client Value :=
  _request "GET"
    ("/api/v2/dags/" ++ fmt dag_id ++ "/dagRuns/" ++ fmt dag_run_id
     ++ "/taskInstances/" ++ fmt task_id) None.

Definition get_task_logs (dag_id dag_run_id task_id task_try_number : Value)
    : Prog Client Value :=
  _request "GET"
    ("/api/v2/dags/" ++ fmt dag_id ++ "/dagRuns/" ++ fmt dag_run_id
     ++ "/taskInstances/" ++ fmt task_id ++ "/logs/"
     ++ fmt task_try_number) None.

(* Variable operations *)
Definition list_variables (limit offset : Value) : Prog Client Value :=
  _request "GET"
    ("/api/v2/variables?limit=" ++ fmt limit ++ "&offset=" ++ fmt offset)
    None.

Definition get_variable (variable_key : Value) : Prog Client Value :=
  _request "GET" ("/api/v2/variables/" ++ fmt variable_key) None.

Definition set_variable (variable_key value : Value) : Prog Client Value :=
  _request "POST" "/api/v2/variables"
    (Some (VDict [("key", variable_key); ("value", value)])).

Definition delete_variable (variable_key : Value) : Prog Client Value :=
  _request "DELETE" ("/api/v2/variables/" ++ fmt variable_key) None ;;;
  pret VNone.

(* Connection operations *)
Definition list_connections (limit offset : Value) : Prog Client Value :=
  _request "GET"
    ("/api/v2/connections?limit=" ++ fmt limit ++ "&offset=" ++ fmt offset)
    None.

Definition get_connection (connection_id : Value) : Prog Client Value :=
  _request "GET" ("/api/v2/connections/" ++ fmt connection_id) None.

(* Pool operations *)
Definition list_pools (limit offset : Value) : Prog Client Value :=
  _request "GET"
    ("/api/v2/pools?limit=" ++ fmt limit ++ "&offset=" ++ fmt offset) None.

Definition get_pool (pool_name : Value) : Prog Client Value :=
  _request "GET" ("/api/v2/pools/" ++ fmt pool_name) None.

(* Import error operations *)
Definition list_import_errors (limit offset : Value) : Prog Client Value :=
  _request "GET"
    ("/api/v2/importErrors?limit=" ++ fmt limit ++ "&offset=" ++ fmt offset)
    None.

Definition get_import_error (import_error_id : Value) : Prog Client Value :=
  _request "GET" ("/api/v2/importErrors/" ++ fmt import_error_id) None.

End Client.

(** ** The MCP server ([server.py]) *)

(** One entry of an [inputSchema]'s ["properties"]; the descriptions are
    left out. *)
Record Schema := mkSchema {
  s_type : string;
  s_default : option Value
}.

Record Tool := mkTool {
  t_name : string;
  t_properties : list (string * Schema);
  t_required : list string
}.

Record TextContent := mkTextContent {
  tc_type : string;
  tc_text : string
}.

(** The module globals of [server.py] and the world the process starts
    in (before a provider exists; afterwards the provider carries it). *)
Record Server := mkServer {
  airflow_client : option Client;
  world : State;
  server_log : list LogRecord
}.

Definition set_airflow_client (v : option Client) (sv : Server) : Server :=
  mkServer v (world sv) (server_log sv).

Definition set_world (v : State) (sv : Server) : Server :=
  mkServer (airflow_client sv) v (server_log sv).

Definition set_server_log (v : list LogRecord) (sv : Server) : Server :=
  mkServer (airflow_client sv) (world sv) v.

Definition number (default : Z) : Schema :=
  mkSchema "number" (Some (VInt default)).

Definition text_field : Schema := mkSchema "string" None.

Definition paging (limit : Z) : list (string * Schema) :=
  [("limit", number limit); ("offset", number 0)].

(** [list_tools()] *)
Definition list_tools : list Tool :=
  [ mkTool "airflow_list_dags" (paging 100) [];
    mkTool "airflow_get_dag" [("dag_id", text_field)] ["dag_id"];
    mkTool "airflow_pause_dag" [("dag_id", text_field)] ["dag_id"];
    mkTool "airflow_unpause_dag" [("dag_id", text_field)] ["dag_id"];
    mkTool "airflow_list_dag_runs"
      (("dag_id", text_field) :: paging 25) ["dag_id"];
    mkTool "airflow_trigger_dag"
      [("dag_id", text_field);
       ("conf", mkSchema "object" (Some (VDict [])));
       ("logical_date", text_field)]
      ["dag_id"];
    mkTool "airflow_get_dag_run"
      [("dag_id", text_field); ("dag_run_id", text_field)]
      ["dag_id"; "dag_run_id"];
    mkTool "airflow_get_task_instance"
      [("dag_id", text_field); ("dag_run_id", text_field);
       ("task_id", text_field)]
      ["dag_id"; "dag_run_id"; "task_id"];
    mkTool "airflow_get_task_logs"
      [("dag_id", text_field); ("dag_run_id", text_field);
       ("task_id", text_field); ("task_try_number", number 1)]
      ["dag_id"; "dag_run_id"; "task_id"];
    mkTool "airflow_list_variables" (paging 100) [];
    mkTool "airflow_get_variable"
      [("variable_key", text_field)] ["variable_key"];
    mkTool "airflow_set_variable"
      [("variable_key", text_field); ("value", text_field)]
      ["variable_key"; "value"];
    mkTool "airflow_delete_variable"
      [("variable_key", text_field)] ["variable_key"];
    mkTool "airflow_list_connections" (paging 100) [];
    mkTool "airflow_get_connection"
      [("connection_id", text_field)] ["connection_id"];
    mkTool "airflow_get_health" [] [];
    mkTool "airflow_get_version" [] [];
    mkTool "airflow_list_pools" (paging 100) [];
    mkTool "airflow_get_pool" [("pool_name", text_field)] ["pool_name"];
    mkTool "airflow_list_import_errors" (paging 100) [];
    mkTool "airflow_get_import_error"
      [("import_error_id", mkSchema "number" None)] ["import_error_id"] ].

Section Server.

Variable henv : HttpEnv.

Definition server_logger (l : Level) (msg : string) : Prog Server unit :=
  pmodify (fun sv => set_server_log (server_log sv ++ [mkLog l msg]) sv).

(** [airflow_client.<attr>]: the global is [None] until
    [initialize_client] has succeeded. *)
Definition client_attr (attr : string) : Prog Server unit :=
  c <~ pgets airflow_client ;;
  match c with
  | Some _ => pret tt
  | None => praise (no_attribute henv VNone attr)
  end.

(** The call of the bound method, on the client object. *)
Definition on_client {A} (m : Prog Client A) : Prog Server A :=
  fun sv =>
    match airflow_client sv with
    | None => Err (no_attribute henv VNone EmptyString) sv
    | Some c =>
        match m c with
        | Ok a c' => Ok a (set_airflow_client (Some c') sv)
        | Err e c' => Err e (set_airflow_client (Some c') sv)
        | Stuck c' => Stuck (set_airflow_client (Some c') sv)
        end
    end.

(** [arguments.get(k, default)] *)
Definition arg_get (arguments : Value) (k : string) (default : Value)
    : Prog Server Value :=
  match arguments with
  | VDict d =>
      match PyVal.lookup k d with
      | Some v => pret v
      | None => pret default
      end
  | _ => praise (no_attribute henv arguments "get")
  end.

(** [arguments[k]] *)
Definition arg_item (arguments : Value) (k : string) : Prog Server Value :=
  subscript henv arguments k.

(** The [if]/[elif] chain of [call_tool]. *)
Definition call_tool_dispatch (name : string) (arguments : Value)
    : Prog Server Value :=
  if String.eqb name "airflow_list_dags" then
    client_attr "list_dags" ;;;
    limit <~ arg_get arguments "limit" (VInt 100) ;;
    offset <~ arg_get arguments "offset" (VInt 0) ;;
    on_client (list_dags henv limit offset)
  else if String.eqb name "airflow_get_dag" then
    client_attr "get_dag" ;;;
    dag_id <~ arg_item arguments "dag_id" ;;
    on_client (get_dag henv dag_id)
  else if String.eqb name "airflow_pause_dag" then
    client_attr "pause_dag" ;;;
    dag_id <~ arg_item arguments "dag_id" ;;
    on_client (pause_dag henv dag_id)
  else if String.eqb name "airflow_unpause_dag" then
    client_attr "unpause_dag" ;;;
    dag_id <~ arg_item arguments "dag_id" ;;
    on_client (unpause_dag henv dag_id)
  else if String.eqb name "airflow_list_dag_runs" then
    client_attr "list_dag_runs" ;;;
    dag_id <~ arg_item arguments "dag_id" ;;
    limit <~ arg_get arguments "limit" (VInt 25) ;;
    offset <~ arg_get arguments "offset" (VInt 0) ;;
    on_client (list_dag_runs henv dag_id limit offset)
  else if String.eqb name "airflow_trigger_dag" then
    client_attr "trigger_dag" ;;;
    dag_id <~ arg_item arguments "dag_id" ;;
    conf <~ arg_get arguments "conf" VNone ;;
    logical_date <~ arg_get arguments "logical_date" VNone ;;
    on_client (trigger_dag henv dag_id conf logical_date)
  else if String.eqb name "airflow_get_dag_run" then
    client_attr "get_dag_run" ;;;
    dag_id <~ arg_item arguments "dag_id" ;;
    dag_run_id <~ arg_item arguments "dag_run_id" ;;
    on_client (get_dag_run henv dag_id dag_run_id)
  else if String.eqb name "airflow_get_task_instance" then
    client_attr "get_task_instance" ;;;
    dag_id <~ arg_item arguments "dag_id" ;;
    dag_run_id <~ arg_item arguments "dag_run_id" ;;
    task_id <~ arg_item arguments "task_id" ;;
    on_client (get_task_instance henv dag_id dag_run_id task_id)
  else if String.eqb name "airflow_get_task_logs" then
    client_attr "get_task_logs" ;;;
    dag_id <~ arg_item arguments "dag_id" ;;
    dag_run_id <~ arg_item arguments "dag_run_id" ;;
    task_id <~ arg_item arguments "task_id" ;;
    task_try_number <~ arg_get arguments "task_try_number" (VInt 1) ;;
    on_client (get_task_logs henv dag_id dag_run_id task_id task_try_number)
  else if String.eqb name "airflow_list_variables" then
    client_attr "list_variables" ;;;
    limit <~ arg_get arguments "limit" (VInt 100) ;;
    offset <~ arg_get arguments "offset" (VInt 0) ;;
    on_client (list_variables henv limit offset)
  else if String.eqb name "airflow_get_variable" then
    client_attr "get_variable" ;;;
    variable_key <~ arg_item arguments "variable_key" ;;
    on_client (get_variable henv variable_key)
  else if String.eqb name "airflow_set_variable" then
    client_attr "set_variable" ;;;
    variable_key <~ arg_item arguments "variable_key" ;;
    value <~ arg_item arguments "value" ;;
    on_client (set_variable henv variable_key value)
  else if String.eqb name "airflow_delete_variable" then
    client_attr "delete_variable" ;;;
    variable_key <~ arg_item arguments "variable_key" ;;
    on_client (delete_variable henv variable_key)
  else if String.eqb name "airflow_list_connections" then
    client_attr "list_connections" ;;;
    limit <~ arg_get arguments "limit" (VInt 100) ;;
    offset <~ arg_get arguments "offset" (VInt 0) ;;
    on_client (list_connections henv limit offset)
  else if String.eqb name "airflow_get_connection" then
    client_attr "get_connection" ;;;
    connection_id <~ arg_item arguments "connection_id" ;;
    on_client (get_connection henv connection_id)
  else if String.eqb name "airflow_get_health" then
    client_attr "get_health" ;;;
    on_client (get_health henv)
  else if String.eqb name "airflow_get_version" then
    client_attr "get_version" ;;;
    on_client (get_version henv)
  else if String.eqb name "airflow_list_pools" then
    client_attr "list_pools" ;;;
    limit <~ arg_get arguments "limit" (VInt 100) ;;
    offset <~ arg_get arguments "offset" (VInt 0) ;;
    on_client (list_pools henv limit offset)
  else if String.eqb name "airflow_get_pool" then
    client_attr "get_pool" ;;;
    pool_name <~ arg_item arguments "pool_name" ;;
    on_client (get_pool henv pool_name)
  else if String.eqb name "airflow_list_import_errors" then
    client_attr "list_import_errors" ;;;
    limit <~ arg_get arguments "limit" (VInt 100) ;;
    offset <~ arg_get arguments "offset" (VInt 0) ;;
    on_client (list_import_errors henv limit offset)
  else if String.eqb name "airflow_get_import_error" then
    client_attr "get_import_error" ;;;
    import_error_id <~ arg_item arguments "import_error_id" ;;
    on_client (get_import_error henv import_error_id)
  else
    praise (ValueError ("Unknown tool: " ++ name)).

Definition call_tool (name : string) (arguments : Value)
    : Prog Server (list TextContent) :=
  ptry
    (server_logger INFO
       "Calling tool: {name} with arguments: {arguments}" ;;;
     result <~ call_tool_dispatch name arguments ;;
     let result_json := json_dumps henv result in
     pret [mkTextContent "text" result_json])
    (fun e =>
       server_logger ERROR "Error calling tool {name}: {e}" ;;;
       let error_msg := "Error: " ++ exn_str e in
       pret [mkTextContent "text" error_msg]).

(** [initialize_client()]; the arguments are what [os.getenv] finds. *)
Definition initialize_client
    (AIRFLOW_HOST IAP_CLIENT_ID : option string)
    (IAP_DESKTOP_CLIENT_ID IAP_DESKTOP_CLIENT_SECRET : option string)
    : Prog Server unit :=
  match AIRFLOW_HOST, IAP_CLIENT_ID with
  | None, _ | Some EmptyString, _ =>
      praise (ValueError "AIRFLOW_HOST environment variable is required")
  | Some _, None | Some _, Some EmptyString =>
      praise (ValueError "IAP_CLIENT_ID environment variable is required")
  | Some airflow_host, Some iap_client_id =>
      server_logger INFO "Initializing Airflow client for {airflow_host}" ;;;
      (* token_provider = IAPTokenProvider(iap_client_id) *)
      w <~ pgets world ;;
      match __init__ (auth_env henv) iap_client_id 3000
              IAP_DESKTOP_CLIENT_ID IAP_DESKTOP_CLIENT_SECRET w with
      | Raised e s => pmodify (set_world s) ;;; praise e
      | Blocked s => fun sv => Stuck (set_world s sv)
      | Returned _ provider =>
          pmodify (set_world provider) ;;;
          (* airflow_client = AirflowHTTPClient(airflow_host, token_provider) *)
          match client_init henv airflow_host provider None None with
          | Err e c => pmodify (set_world (token_provider c)) ;;; praise e
          | Stuck c => fun sv => Stuck (set_world (token_provider c) sv)
          | Ok _ c =>
              pmodify (set_world (token_provider c)) ;;;
              pmodify (set_airflow_client (Some c)) ;;;
              server_logger INFO
                "Airflow HTTP client initialized successfully with dual authentication"
          end
      end
  end.

End Server.

(** ** Vocabulary for the properties of the client and the server *)

(** A run of [n] slashes. *)
Fixpoint slashes (n : nat) : string :=
  match n with
  | O => EmptyString
  | S k => String "/" (slashes k)
  end.

(** The request [_refresh_airflow_jwt] sends. *)
Definition jwt_request (c : Client) (iap_token : string) (seen : nat)
    : HttpCall :=
  mkCall "POST" (airflow_host c ++ "/auth/token")%string
    [("Authorization", ("Bearer " ++ iap_token)%string)]
    (Some (VDict [("username", VStr (airflow_username c));
                  ("password", VStr (airflow_password c))]))
    seen.

(** The request [_request] sends. *)
Definition api_request (henv : HttpEnv) (c : Client) (method path : string)
    (js : option Value) (iap_token : string) (seen : nat) : HttpCall :=
  mkCall method (airflow_host c ++ path)%string
    [("Authorization",
      ("Bearer " ++ PyVal.str (py_repr henv) (_airflow_jwt_token c))%string);
     ("Proxy-Authorization", ("Bearer " ++ iap_token)%string);
     ("Content-Type", "application/json")]
    js seen.

Definition is_jwt_request (host : string) (call : HttpCall) : Prop :=
  h_method call = "POST"
  /\ h_url call = (host ++ "/auth/token")%string.

(** The HTTP method of the client method each tool is routed to. *)
Definition http_method_of (name : string) : string :=
  if existsb (String.eqb name) ["airflow_pause_dag"; "airflow_unpause_dag"]
  then "PATCH"
  else if existsb (String.eqb name)
            ["airflow_trigger_dag"; "airflow_set_variable"]
  then "POST"
  else if String.eqb name "airflow_delete_variable" then "DELETE"
  else "GET".

Definition is_stuck {S A} (r : Res S A) : bool :=
  match r with
  | Stuck _ => true
  | _ => false
  end.

(** What a client method routed through [_request] may do to the
    client: the host stays, a JWT that is set stays, the provider's lock
    ends up held exactly when the call is stuck, and every request sent
    has the given method or is the JWT request. *)
Definition client_frame (method : string) (c c' : Client)
    (stuck : bool) : Prop :=
  airflow_host c' = airflow_host c
  /\ (PyVal.truthy (_airflow_jwt_token c) = true ->
      _airflow_jwt_token c' = _airflow_jwt_token c)
  /\ (_lock (token_provider c) = false ->
      _lock (token_provider c') = stuck)
  /\ exists new,
      (sent c' = sent c ++ new)%list
      /\ Forall (fun call => h_method call = method
                             \/ is_jwt_request (airflow_host c) call) new.

(** The expiry on record is the expiry of the credential held. *)
Definition synced (s : State) : Prop :=
  forall c e, _credentials s = Some c -> expiry c = Some e ->
              _token_expiry s = Some e.

(** ** [AirflowIAPClient] ([airflow_tools.py])

    The client built on the generated Airflow API library.  Its own code
    is the authentication: [_refresh_airflow_jwt], [_set_auth_header] and
    [_api_call]; the API functions it wraps belong to the library and
    are answered by an oracle. *)

Module Tools.

(** One call of a library API function by [_api_call], with the
    default headers of [self.api_client] at that moment. *)
Record ApiCall := mkApiCall {
  api_func : string;
  api_args : list Value;
  api_headers : list (string * string)
}.

Inductive ApiReply :=
| ApiResult (v : Value)
| ApiRaises (e : Exn).

Record ApiClient := mkApiClient {
  airflow_host : string;
  token_provider : State;
  api_version : string;
  airflow_username : option string;
  airflow_password : option string;
  _airflow_jwt_token : Value;
  default_headers : list (string * string);
  sent : list HttpCall;
  invoked : list ApiCall;
  client_log : list LogRecord
}.

Definition set_provider (v : State) (c : ApiClient) : ApiClient :=
  mkApiClient (airflow_host c) v (api_version c) (airflow_username c)
    (airflow_password c) (_airflow_jwt_token c) (default_headers c)
    (sent c) (invoked c) (client_log c).

Definition set_jwt (v : Value) (c : ApiClient) : ApiClient :=
  mkApiClient (airflow_host c) (token_provider c) (api_version c)
    (airflow_username c) (airflow_password c) v (default_headers c)
    (sent c) (invoked c) (client_log c).

Definition set_default_headers (v : list (string * string)) (c : ApiClient)
    : ApiClient :=
  mkApiClient (airflow_host c) (token_provider c) (api_version c)
    (airflow_username c) (airflow_password c) (_airflow_jwt_token c) v
    (sent c) (invoked c) (client_log c).

Definition set_sent (v : list HttpCall) (c : ApiClient) : ApiClient :=
  mkApiClient (airflow_host c) (token_provider c) (api_version c)
    (airflow_username c) (airflow_password c) (_airflow_jwt_token c)
    (default_headers c) v (invoked c) (client_log c).

Definition set_invoked (v : list ApiCall) (c : ApiClient) : ApiClient :=
  mkApiClient (airflow_host c) (token_provider c) (api_version c)
    (airflow_username c) (airflow_password c) (_airflow_jwt_token c)
    (default_headers c) (sent c) v (client_log c).

Definition set_client_log (v : list LogRecord) (c : ApiClient) : ApiClient :=
  mkApiClient (airflow_host c) (token_provider c) (api_version c)
    (airflow_username c) (airflow_password c) (_airflow_jwt_token c)
    (default_headers c) (sent c) (invoked c) v.

(** [headers[k] = v] on a dict kept as its items. *)
Fixpoint dict_set (k v : string) (d : list (string * string))
    : list (string * string) :=
  match d with
  | [] => [(k, v)]
  | (k', v') :: r =>
      if String.eqb k k' then (k, v) :: r else (k', v') :: dict_set k v r
  end.

Fixpoint dict_find (k : string) (d : list (string * string)) : option string :=
  match d with
  | [] => None
  | (k', v) :: r => if String.eqb k k' then Some v else dict_find k r
  end.

Section Methods.

Variable henv : HttpEnv.

(** What the library's API functions answer, by the number of calls
    made so far. *)
Variable api_reply : nat -> ApiCall -> ApiReply.

Definition provider_get_token : Prog ApiClient string :=
  fun c =>
    match get_token (auth_env henv) (token_provider c) with
    | Returned t s => Ok t (set_provider s c)
    | Raised e s => Err e (set_provider s c)
    | Blocked s => Stuck (set_provider s c)
    end.

(** [httpx.post(url, json=.., headers=.., timeout=30.0)] *)
Definition httpx_post (url : string) (js : Value)
    (headers : list (string * string)) : Prog ApiClient HttpResponse :=
  n <~ pgets (fun c => length (sent c)) ;;
  seen <~ pgets (fun c => calls (token_provider c)) ;;
  let call := mkCall "POST" url headers (Some js) seen in
  pmodify (fun c => set_sent (sent c ++ [call]) c) ;;;
  match httpx_reply henv n call with
  | Responded r => pret r
  | HttpFails e => praise e
  end.

Definition raise_for_status (r : HttpResponse) : Prog ApiClient unit :=
  match status_error r with
  | Some e => praise e
  | None => pret tt
  end.

Definition response_json (r : HttpResponse) : Prog ApiClient Value :=
  match body r with
  | Some v => pret v
  | None => praise (body_error r)
  end.

(** [token_data.get("access_token")] *)
Definition dict_get_or_none (v : Value) (k : string) : Prog ApiClient Value :=
  match v with
  | VDict d =>
      match PyVal.lookup k d with
      | Some x => pret x
      | None => pret VNone
      end
  | _ => praise (no_attribute henv v "get")
  end.

Definition logger (l : Level) (msg : string) : Prog ApiClient unit :=
  pmodify (fun c => set_client_log (client_log c ++ [mkLog l msg]) c).

Definition or_empty (o : option string) : string :=
  match o with
  | Some s => s
  | None => EmptyString
  end.

Definition _refresh_airflow_jwt : Prog ApiClient unit :=
  ptry
    (iap_token <~ provider_get_token ;;
     host <~ pgets airflow_host ;;
     let auth_url := host ++ "/auth/token" in
     username <~ pgets airflow_username ;;
     password <~ pgets airflow_password ;;
     let auth_payload :=
       VDict [("username", VStr (or_empty username));
              ("password", VStr (or_empty password))] in
     response <~ httpx_post auth_url auth_payload
                   [("Authorization", "Bearer " ++ iap_token)] ;;
     raise_for_status response ;;;
     token_data <~ response_json response ;;
     access_token <~ dict_get_or_none token_data "access_token" ;;
     pmodify (set_jwt access_token) ;;;
     if negb (PyVal.truthy access_token)
     then praise (RuntimeError "No access_token in response")
     else logger INFO "Successfully obtained Airflow JWT token")
    (fun e =>
       logger ERROR "Failed to obtain Airflow JWT token: {e}" ;;;
       praise (RuntimeError ("Airflow authentication failed: " ++ exn_str e))).

(** [self.api_client.set_default_header(k, v)] *)
Definition set_default_header (k v : string) : Prog ApiClient unit :=
  pmodify (fun c => set_default_headers (dict_set k v (default_headers c)) c).

Definition _set_auth_header : Prog ApiClient unit :=
  iap_token <~ provider_get_token ;;
  jwt <~ pgets _airflow_jwt_token ;;
  pwhen (negb (PyVal.truthy jwt)) _refresh_airflow_jwt ;;;
  set_default_header "Proxy-Authorization" ("Bearer " ++ iap_token) ;;;
  jwt <~ pgets _airflow_jwt_token ;;
  set_default_header "Authorization"
    ("Bearer " ++ PyVal.str (py_repr henv) jwt).

(** The call of [func] with its arguments *)
Definition invoke (func : string) (args : list Value) : Prog ApiClient Value :=
  n <~ pgets (fun c => length (invoked c)) ;;
  headers <~ pgets default_headers ;;
  let call := mkApiCall func args headers in
  pmodify (fun c => set_invoked (invoked c ++ [call]) c) ;;;
  match api_reply n call with
  | ApiResult v => pret v
  | ApiRaises e => praise e
  end.

Definition _api_call (func : string) (args : list Value)
    : Prog ApiClient Value :=
  _set_auth_header ;;;
  invoke func args.

End Methods.

End Tools.

(** ** Sample client and server *)

Module SampleHttp.

Definition granted : HttpResponse :=
  mkHttpResponse None (Some (VDict [("access_token", VStr "airflow.jwt")]))
    (mkExn "JSONDecodeError" "Expecting value").

(** The Airflow host answers every request with the same JSON object. *)
Definition henv : HttpEnv :=
  mkHttpEnv Sample.fair (fun _ _ => Responded granted)
    (fun _ => "{..}") (fun _ => "{..}")
    (fun _ => mkExn "TypeError" "object is not subscriptable")
    (fun _ attr => mkExn "AttributeError" attr).

Definition client (p : State) : Client :=
  mkClient "https://airflow.example.com" p EmptyString EmptyString
    (VStr "airflow.jwt") [] [].

Definition server (p : State) : Server :=
  mkServer (Some (client p)) p [].

(** The process before [initialize_client]: no client, no cache file. *)
Definition cold : Server :=
  mkServer None (Sample.provider None None 100 None) [].

Definition get_dag_tool : Tool :=
  mkTool "airflow_get_dag" [("dag_id", text_field)] ["dag_id"].

Definition list_dags_tool : Tool :=
  mkTool "airflow_list_dags" (paging 100) [].

End SampleHttp.

(** * Properties *)

Open Scope list_scope.

(** ** The monad *)

(** Acquiring the lock while it is held never comes back. *)
Lemma with_lock_held {A} (body : M A) s :
  _lock s = true -> with_lock body s = Blocked s.
Proof. unfold with_lock. now intros ->. Qed.

Lemma _refresh_token_held env s :
  _lock s = true -> _refresh_token env s = Blocked s.
Proof. apply with_lock_held. Qed.

(** ** Traces *)

Lemma added_app s s' new :
  trace s' = trace s ++ new -> added s s' = new.
Proof.
  unfold added. intros ->.
  rewrite skipn_app, skipn_all, Nat.sub_diag. reflexivity.
Qed.

Lemma added_same s s' : trace s' = trace s -> added s s' = [].
Proof.
  intros H. apply added_app. now rewrite app_nil_r.
Qed.

Lemma count_app p l1 l2 : count p (l1 ++ l2) = (count p l1 + count p l2)%nat.
Proof.
  unfold count. now rewrite map_app, filter_app, length_app.
Qed.

(** ** Symbolic execution

    [run] executes provider code on a state whose fields are known;
    [crack] splits on whatever the collaborators answer next. *)

Lemma skipn_exact {A} (l r : list A) : skipn (length l) (l ++ r) = r.
Proof. now rewrite skipn_app, skipn_all, Nat.sub_diag. Qed.

Ltac run :=
  cbv beta iota zeta delta
    [get_token get_token_exchange _refresh_token _perform_oauth_flow
     _save_credentials _update_expiry_from_credentials clear_cache
     _load_cached_credentials _initialize_credentials
     credentials_refresh run_local_server requests_post raise_for_status
     response_json unlink stop thread_join event_wait _start_refresh_thread
     getenv with_lock try_except bind ret raise gets modify when emit logger
     the_credentials is_none is_some calls final exchange_payload
     set_credentials set_token_expiry set_lock set_refresh_thread
     set_stop_refresh set_cache_file set_utcnow set_trace set_log
     iap_client_id refresh_interval desktop_client_id desktop_client_secret
     _credentials _token_expiry _lock _refresh_thread _stop_refresh
     cache_file utcnow trace log negb].

Ltac crack :=
  repeat match goal with
         | |- context [match ?x with _ => _ end] =>
             lazymatch x with
             | context [match _ with _ => _ end] => fail
             | _ => destruct x eqn:?; run
             end
         end.

(** Reads off the entries added to a trace [tr ++ ...]. *)
Ltac added_tac :=
  unfold added; run; rewrite <- ?app_assoc;
  first [ rewrite skipn_exact | rewrite skipn_all ]; cbn; try reflexivity.

(** ** Lock discipline *)

Lemma under_lock_refl {A} (m : M A) :
  (forall s, final (m s) = s) -> under_lock m.
Proof.
  intros H s Hl. rewrite H. split; [exact Hl|].
  exists []. split; [now rewrite app_nil_r | constructor].
Qed.

Lemma under_lock_ret {A} (a : A) : under_lock (ret a).
Proof. now apply under_lock_refl. Qed.

Lemma under_lock_raise {A} e : under_lock (@raise A e).
Proof. now apply under_lock_refl. Qed.

Lemma under_lock_gets {A} (f : State -> A) : under_lock (gets f).
Proof. now apply under_lock_refl. Qed.

Lemma under_lock_with_lock {A} (body : M A) : under_lock (with_lock body).
Proof.
  intros s Hl. rewrite (with_lock_held body s Hl). cbn.
  split; [exact Hl|]. exists []. split; [now rewrite app_nil_r | constructor].
Qed.

Lemma under_lock_modify (f : State -> State) :
  (forall s, _lock (f s) = _lock s) ->
  (forall s, trace (f s) = trace s) ->
  under_lock (modify f).
Proof.
  intros Hf Ht s Hl. cbn. rewrite Hf, Ht. split; [exact Hl|].
  exists []. split; [now rewrite app_nil_r | constructor].
Qed.

Lemma under_lock_emit e : under_lock (emit e).
Proof.
  intros s Hl. cbn. split; [exact Hl|].
  exists [mkEntry (_lock s) e]. split; [reflexivity|].
  constructor; [exact Hl | constructor].
Qed.

Lemma under_lock_logger l msg : under_lock (logger l msg).
Proof. now apply under_lock_modify. Qed.

Lemma under_lock_bind {A B} (m : M A) (k : A -> M B) :
  under_lock m -> (forall a, under_lock (k a)) -> under_lock (bind m k).
Proof.
  intros Hm Hk s Hl. specialize (Hm s Hl). unfold bind.
  destruct (m s) as [a s1|e s1|s1]; cbn in Hm; try exact Hm.
  destruct Hm as [Hl1 [n1 [Ht1 Hn1]]].
  destruct (Hk a s1 Hl1) as [Hl2 [n2 [Ht2 Hn2]]].
  split; [exact Hl2|]. exists (n1 ++ n2). split.
  - now rewrite Ht2, Ht1, app_assoc.
  - now apply Forall_app.
Qed.

Lemma under_lock_try_except {A} (m : M A) (h : Exn -> M A) :
  under_lock m -> (forall e, under_lock (h e)) -> under_lock (try_except m h).
Proof.
  intros Hm Hh s Hl. specialize (Hm s Hl). unfold try_except.
  destruct (m s) as [a s1|e s1|s1]; cbn in Hm; try exact Hm.
  destruct Hm as [Hl1 [n1 [Ht1 Hn1]]].
  destruct (Hh e s1 Hl1) as [Hl2 [n2 [Ht2 Hn2]]].
  split; [exact Hl2|]. exists (n1 ++ n2). split.
  - now rewrite Ht2, Ht1, app_assoc.
  - now apply Forall_app.
Qed.

Lemma under_lock_when b (m : M unit) : under_lock m -> under_lock (when b m).
Proof. destruct b; cbn; [trivial | intros _; apply under_lock_ret]. Qed.

Create HintDb locking.

#[local] Hint Resolve under_lock_ret under_lock_raise under_lock_gets
  under_lock_with_lock under_lock_emit under_lock_logger under_lock_bind
  under_lock_try_except under_lock_when : locking.

#[local] Hint Extern 1 (under_lock (modify _)) =>
  apply under_lock_modify; reflexivity : locking.

#[local] Hint Extern 2 (under_lock (match ?x with _ => _ end)) =>
  destruct x : locking.

Ltac locked := auto 40 with locking.

Lemma under_lock_the_credentials : under_lock the_credentials.
Proof. unfold the_credentials. locked. Qed.

#[local] Hint Resolve under_lock_the_credentials : locking.

Lemma under_lock_save env : under_lock (_save_credentials env).
Proof. unfold _save_credentials. locked. Qed.

Lemma under_lock_update_expiry : under_lock _update_expiry_from_credentials.
Proof.
  unfold _update_expiry_from_credentials.
  apply under_lock_bind; [locked|]. intros [[? ? ? ? ? ? [e|]]|]; locked.
Qed.

#[local] Hint Resolve under_lock_save under_lock_update_expiry : locking.

Lemma under_lock_oauth_flow env : under_lock (_perform_oauth_flow env).
Proof. unfold _perform_oauth_flow, run_local_server. locked. Qed.

Lemma under_lock_refresh env : under_lock (credentials_refresh env).
Proof. unfold credentials_refresh. locked. Qed.

#[local] Hint Resolve under_lock_oauth_flow under_lock_refresh : locking.

Lemma under_lock_load env : under_lock (_load_cached_credentials env).
Proof. unfold _load_cached_credentials. locked. Qed.

Lemma under_lock_exchange env : under_lock (get_token_exchange env).
Proof.
  unfold get_token_exchange, requests_post, raise_for_status, response_json.
  locked.
Qed.

Lemma under_lock_refresh_token env : under_lock (_refresh_token env).
Proof. apply under_lock_with_lock. Qed.

#[local] Hint Resolve under_lock_load under_lock_exchange
  under_lock_refresh_token : locking.

Lemma with_lock_discipline {A} (body : M A) s :
  under_lock body -> _lock s = false ->
  all_held (added s (final (with_lock body s))).
Proof.
  intros Hb Hl. unfold with_lock. rewrite Hl.
  destruct (Hb (set_lock true s) eq_refl) as [_ [new [Ht Hn]]].
  assert (Hadd : added s (final (body (set_lock true s))) = new)
    by (apply added_app; exact Ht).
  destruct (body (set_lock true s)); cbn in *; exact (eq_ind_r _ Hn Hadd).
Qed.

(** Every renewal, consent flow, token request and cache-file operation
    of the four locked entry points is made while the lock is held. *)
Lemma lock_discipline env s :
  _lock s = false ->
  all_held (added s (final (get_token env s)))
  /\ all_held (added s (final (_refresh_token env s)))
  /\ all_held (added s (final (clear_cache s)))
  /\ all_held (added s (final (_initialize_credentials env s))).
Proof.
  intros Hl. repeat split; apply with_lock_discipline; trivial;
    unfold unlink; locked.
Qed.

(** A call that comes back, by return or by exception, has released the
    lock; a call that does not come back holds it. *)
Lemma with_lock_releases {A} (body : M A) s :
  under_lock body -> _lock s = false ->
  match with_lock body s with
  | Returned _ s' | Raised _ s' => _lock s' = false
  | Blocked s' => _lock s' = true
  end.
Proof.
  intros Hb Hl. unfold with_lock. rewrite Hl.
  destruct (Hb (set_lock true s) eq_refl) as [Hheld _].
  destruct (body (set_lock true s)); cbn in *; trivial.
Qed.

(** ** Construction

    A provider that has been constructed is between calls: the lock is
    free, there is a credential with an expiry on record, and the
    background thread sits in its wait. *)
Lemma constructed_provider env iap interval gid gsec w s :
  __init__ env iap interval gid gsec w = Returned tt s ->
  _lock s = false
  /\ (exists c, _credentials s = Some c)
  /\ (exists e, _token_expiry s = Some e)
  /\ _refresh_thread s = Some (Alive (Some 0))
  /\ _stop_refresh s = false.
Proof.
  assert (H : match __init__ env iap interval gid gsec w with
              | Returned _ s =>
                  _lock s = false
                  /\ (exists c, _credentials s = Some c)
                  /\ (exists e, _token_expiry s = Some e)
                  /\ _refresh_thread s = Some (Alive (Some 0))
                  /\ _stop_refresh s = false
              | _ => True
              end).
  { destruct w as [a b cid sec cr te l th st f now tr lg].
    unfold __init__. run. destruct gid as [gid|]; run; crack; trivial;
      repeat split; try reflexivity; eexists; reflexivity. }
  intros Heq. now rewrite Heq in H.
Qed.

(** ** [_save_credentials] never fails *)

Lemma _save_credentials_returns env s :
  exists s',
    _save_credentials env s = Returned tt s'
    /\ _credentials s' = _credentials s
    /\ _token_expiry s' = _token_expiry s
    /\ _lock s' = _lock s
    /\ utcnow s' = utcnow s
    /\ trace s' = trace s ++ [mkEntry (_lock s) EvSave]
    /\ (save_fault env (calls s) <> NoFault ->
        exists l,
          log s' = l ++ [mkLog ERROR "Failed to save credentials: {e}"]).
Proof.
  destruct s as [a b c d cr te l th st f now tr lg].
  unfold _save_credentials, try_except, bind, the_credentials. cbn.
  destruct (save_fault env (length tr)) eqn:Hf, cr as [cr|]; cbn;
    eexists; repeat split; try (intros _; eexists; reflexivity);
    intros H; now elim H.
Qed.

(** ** Claims *)

(** Inside the 5-minute margin [get_token] never gets past its call
    of [_refresh_token]. *)
Lemma get_token_blocks_in_margin env s c e :
  _lock s = false ->
  _credentials s = Some c ->
  _token_expiry s = Some e ->
  utcnow s >= e - 300 ->
  exists s',
    get_token env s = Blocked s'
    /\ added s s' = []
    /\ _lock s' = true
    /\ _credentials s' = Some c.
Proof.
  intros Hl Hc He Hn.
  assert (Hge : (utcnow s >=? e - 300) = true) by (apply Z.geb_le; lia).
  destruct s as [a b cid sec cr te l th st f now tr lg]. cbn in *. subst.
  unfold get_token, with_lock. cbn. unfold bind at 1. cbn.
  destruct (expired env c now); cbn.
  - eexists. repeat split.
    unfold added. cbn. now rewrite skipn_all.
  - rewrite Hge. cbn. eexists. repeat split.
    unfold added. cbn. now rewrite skipn_all.
Qed.

(** The state in which that happens is an ordinary one: any provider
    that was constructed, once the clock has come within 5 minutes of the
    expiry it has on record. *)
Lemma constructed_provider_blocks_in_margin env iap interval gid gsec w s e t :
  __init__ env iap interval gid gsec w = Returned tt s ->
  _token_expiry s = Some e ->
  t >= e - 300 ->
  exists s', get_token env (set_utcnow t s) = Blocked s'.
Proof.
  intros Hinit He Ht.
  destruct (constructed_provider _ _ _ _ _ _ _ Hinit) as [Hl [[c Hc] _]].
  destruct (get_token_blocks_in_margin env (set_utcnow t s) c e)
    as [s' [Hg _]]; try (now destruct s).
  now exists s'.
Qed.

(** C1.  The claim: with [now >= expiry - 5 min], [get_token] makes exactly
    one renewal call and then the audience exchange.  What the code does:
    [get_token] holds [self._lock] when it reaches the call of
    [_refresh_token], which starts by taking the same non-reentrant lock.
    For every provider with a credential inside the margin the call
    therefore never returns: it is blocked with the lock held, having made
    no renewal call and no token request. *)
Theorem get_token_near_expiry_deadlock env s c e :
  _lock s = false ->
  _credentials s = Some c ->
  _token_expiry s = Some e ->
  utcnow s >= e - 300 ->
  exists s',
    get_token env s = Blocked s'
    /\ count is_renew (added s s') = 0%nat
    /\ count is_post (added s s') = 0%nat
    /\ _lock s' = true.
Proof.
  intros Hl Hc He Hn.
  destruct (get_token_blocks_in_margin env s c e Hl Hc He Hn)
    as [s' [Hg [Ha [Hl' _]]]].
  exists s'. rewrite Ha. repeat split; trivial.
Qed.

Lemma get_token_near_expiry_deadlock_witness :
  exists s',
    get_token Sample.fair Sample.near_expiry = Blocked s'
    /\ count is_renew (added Sample.near_expiry s') = 0%nat
    /\ count is_post (added Sample.near_expiry s') = 0%nat
    /\ _lock s' = true.
Proof.
  apply (get_token_near_expiry_deadlock Sample.fair Sample.near_expiry
           (Sample.creds (Some "ya29.access") (Some 1000)) 1000);
    [reflexivity | reflexivity | reflexivity | cbn; lia].
Defined.

Lemma in_replace_nth {A} (i : nat) (x y : A) (l : list A) :
  In y (replace_nth i x l) -> y = x \/ In y l.
Proof.
  revert i. induction l as [|z l IH]; intros [|i] Hin; cbn in *; try tauto.
  - destruct Hin as [<- | Hin]; tauto.
  - destruct Hin as [<- | Hin]; [tauto|]. destruct (IH i Hin); tauto.
Qed.

Lemma pool_stuck env p q :
  _lock (shared p) = true -> ~ pool_step env p q.
Proof.
  intros Hl H. destruct H as [i s cs _ Hfree]. cbn in Hl. congruence.
Qed.

(** C7.  The claim: callers that find a near-expiry credential at the
    same time cause exactly one renewal call between them.  What the code
    does: however many callers there are and in whatever order they are
    scheduled, the first one to obtain the lock is blocked inside
    [_refresh_token] with the lock held (C1) and all the others wait for
    that lock.  In every configuration the callers can reach, no renewal
    call has been made and no caller has finished; after the first step
    no further step is possible. *)
Theorem concurrent_callers_no_renewal env s c e n p :
  _lock s = false ->
  _credentials s = Some c ->
  _token_expiry s = Some e ->
  utcnow s >= e - 300 ->
  pool_run env (mkPool s (repeat Arrived n)) p ->
  count is_renew (added s (shared p)) = 0%nat
  /\ (forall r, ~ In (Finished r) (callers p))
  /\ (p <> mkPool s (repeat Arrived n) ->
      _lock (shared p) = true
      /\ In Hung (callers p)
      /\ forall q, ~ pool_step env p q).
Proof.
  intros Hl Hc He Hn Hrun.
  assert (Hinit : forall r, ~ In (Finished r) (repeat Arrived n)).
  { intros r Hin. apply repeat_spec in Hin. discriminate. }
  inversion Hrun as [p0 | p0 q r Hstep Hrest]; subst.
  - (* nobody has moved *)
    cbn. rewrite (added_same s s eq_refl).
    split; [reflexivity|]. split; [exact Hinit|].
    intros Hne. now elim Hne.
  - (* a first caller has run: everything is stuck from there on *)
    inversion Hstep as [i s0 cs Hi Hfree]; subst.
    destruct (get_token_blocks_in_margin env s c e Hl Hc He Hn)
      as [s1 [Hg [Ha [Hl1 _]]]].
    rewrite Hg in *. cbn in *.
    assert (Hp : p = mkPool s1 (replace_nth i Hung (repeat Arrived n))).
    { inversion Hrest as [p1 | p1 q1 r1 Hstep1 _]; subst; [reflexivity|].
      exfalso. revert Hstep1. apply pool_stuck. exact Hl1. }
    subst p. cbn. rewrite Ha. repeat split; trivial.
    + intros r Hin. apply in_replace_nth in Hin.
      destruct Hin as [Hin | Hin]; [discriminate | exact (Hinit r Hin)].
    + clear - Hi. revert i Hi.
      induction n as [|n IH]; intros [|i] Hi; cbn in *;
        try discriminate; [now left | right; now apply IH].
    + intros q. now apply pool_stuck.
Qed.

Lemma concurrent_callers_no_renewal_witness :
  let p := mkPool (final (get_token Sample.fair Sample.near_expiry))
                  [Arrived; Hung] in
  pool_run Sample.fair (mkPool Sample.near_expiry [Arrived; Arrived]) p
  /\ count is_renew (added Sample.near_expiry (shared p)) = 0%nat
  /\ (forall r, ~ In (Finished r) (callers p))
  /\ (p <> mkPool Sample.near_expiry [Arrived; Arrived] ->
      _lock (shared p) = true
      /\ In Hung (callers p)
      /\ forall q, ~ pool_step Sample.fair p q).
Proof.
  assert (Hrun : pool_run Sample.fair
                   (mkPool Sample.near_expiry [Arrived; Arrived])
                   (mkPool (final (get_token Sample.fair Sample.near_expiry))
                      [Arrived; Hung])).
  { eapply run_step; [|apply run_done].
    exact (caller_runs Sample.fair 1 Sample.near_expiry [Arrived; Arrived]
             eq_refl eq_refl). }
  split; [exact Hrun|].
  apply (concurrent_callers_no_renewal Sample.fair Sample.near_expiry
           (Sample.creds (Some "ya29.access") (Some 1000)) 1000 2 _
           eq_refl eq_refl eq_refl);
    [cbn; lia | exact Hrun].
Defined.

(** With no credential in memory, [get_token] starts with the consent
    flow and runs it once; it makes no renewal call. *)
Lemma get_token_without_credentials env s :
  _lock s = false ->
  _credentials s = None ->
  exists rest,
    added s (final (get_token env s)) = mkEntry true EvConsent :: rest
    /\ count is_consent rest = 0%nat
    /\ count is_renew rest = 0%nat.
Proof.
  intros Hl Hc.
  destruct s as [a b cid sec cr te l th st f now tr lg]. cbn in *. subst.
  unfold added. run. crack.
  all: rewrite <- ?app_assoc; rewrite skipn_exact; cbn.
  all: eexists; split; [reflexivity|]; split; reflexivity.
Qed.

(** C2, as stated, fails: the token endpoint answers 503 "Service
    Unavailable" to the first request, which says nothing about the
    audience parameter, and [get_token] still repeats the request
    without [audience]. *)
Lemma retry_without_audience_rejection :
  ~ Spec.retry_only_on_audience_rejection Sample.flaky Sample.fresh
      (Sample.creds (Some "ya29.access") (Some 1000)).
Proof.
  unfold Spec.retry_only_on_audience_rejection. intros H.
  destruct H as [r [Hr Ha]].
  - vm_compute. right. left. reflexivity.
  - vm_compute in Hr. injection Hr as <-. vm_compute in Ha. discriminate.
Qed.

(** C2, amended.  With a credential that needs no renewal, the exchange
    sends the request with [audience]; when the answer has status 200
    that is the only request; when it has any other status, whatever the
    reason, exactly one more request is sent, without [audience], and if
    that one is not answered with a 4xx/5xx status and its body has an
    [id_token] field, [get_token] returns that token. *)
Theorem retry_on_any_non_200 env s c e r :
  _lock s = false ->
  _credentials s = Some c ->
  PyStr.truthy (token c) = true ->
  expired env c (utcnow s) = false ->
  _token_expiry s = Some e ->
  utcnow s < e - 300 ->
  post_reply env (calls s)
    (exchange_payload s c (Some (iap_client_id s))) = PostResponse r ->
  let o := get_token env s in
  let first := mkEntry true
                 (EvPost (exchange_payload s c (Some (iap_client_id s)))) in
  let retry := mkEntry true (EvPost (exchange_payload s c None)) in
  (status_code r = 200 -> added s (final o) = [first])
  /\ (status_code r <> 200 ->
      added s (final o) = [first; retry]
      /\ forall r2 d t,
          post_reply env (S (calls s)) (exchange_payload s c None)
            = PostResponse r2 ->
          status_code r2 < 400 \/ 600 <= status_code r2 ->
          json r2 = Some d ->
          dict_get "id_token" d = Some t ->
          exists s', o = Returned t s').
Proof.
  intros Hl Hc Ht He Hte Hn Hr.
  assert (Hlt : (utcnow s >=? e - 300) = false)
    by (rewrite Z.geb_leb; apply Z.leb_gt; lia).
  destruct s as [a b cid sec cr te l th st f now tr lg].
  unfold exchange_payload in *. cbn in *. subst.
  cbv zeta. split.
  - intros H200. apply Z.eqb_eq in H200.
    unfold added. run. rewrite He, Hlt, Ht, Hr. run. rewrite H200. run.
    crack; rewrite <- ?app_assoc; rewrite skipn_exact; reflexivity.
  - intros H200. apply Z.eqb_neq in H200. split.
    + unfold added. run. rewrite He, Hlt, Ht, Hr. run. rewrite H200. run.
      rewrite length_app, Nat.add_comm. cbn [length Nat.add].
      crack; rewrite <- ?app_assoc; rewrite skipn_exact; reflexivity.
    + intros r2 d t Hr2 Hs2 Hj Hd.
      assert (Hrange : (400 <=? status_code r2) && (status_code r2 <? 600)
                       = false).
      { apply andb_false_iff. destruct Hs2; [left | right].
        - apply Z.leb_gt. lia.
        - apply Z.ltb_ge. lia. }
      run. rewrite He, Hlt, Ht, Hr. run. rewrite H200. run.
      rewrite length_app, Nat.add_comm. cbn [length Nat.add].
      rewrite Hr2. run. rewrite Hrange, Hj, Hd. eexists. reflexivity.
Qed.

Lemma retry_on_any_non_200_witness :
  added Sample.fresh (final (get_token Sample.flaky Sample.fresh))
  = [mkEntry true
       (EvPost (exchange_payload Sample.fresh
                  (Sample.creds (Some "ya29.access") (Some 1000))
                  (Some (iap_client_id Sample.fresh))));
     mkEntry true
       (EvPost (exchange_payload Sample.fresh
                  (Sample.creds (Some "ya29.access") (Some 1000)) None))]
  /\ exists s',
      get_token Sample.flaky Sample.fresh = Returned "eyJ.id.token" s'.
Proof.
  destruct (retry_on_any_non_200 Sample.flaky Sample.fresh
              (Sample.creds (Some "ya29.access") (Some 1000)) 1000
              (Sample.response 503 "Service Unavailable" None))
    as [_ H]; try reflexivity.
  destruct H as [Ha Hr]; [cbn; lia|].
  split; [exact Ha|].
  apply (Hr (Sample.response 200 "{..}"
               (Some [("access_token", "ya29.new");
                      ("id_token", "eyJ.id.token")]))
            [("access_token", "ya29.new"); ("id_token", "eyJ.id.token")]);
    [reflexivity | cbn; lia | reflexivity | reflexivity].
Defined.

(** C3, as stated, fails: with an expired credential and a renewal call
    that fails on the transport, [_refresh_token], the renewal step that
    [get_token] and the background loop call, makes the renewal call and
    returns normally; nothing is raised to its caller.  ([get_token]
    itself, entered in that state, does not raise either: it is blocked
    on the lock before any renewal call, see C1.) *)
Lemma transient_renewal_failure_not_surfaced :
  let c := Sample.creds (Some "ya29.access") (Some 1000) in
  refresh_reply Sample.offline (calls Sample.stale) c
    = RefreshRaises Sample.transport_error
  /\ Spec.invalid_grant Sample.transport_error = false
  /\ events (final (_refresh_token Sample.offline Sample.stale)) = [EvRenew c]
  /\ ~ Spec.surfaced (_refresh_token Sample.offline Sample.stale)
  /\ ~ Spec.surfaced (get_token Sample.offline Sample.stale).
Proof.
  cbv zeta. repeat split; try reflexivity.
  - intros [e [s' H]]. vm_compute in H. discriminate.
  - intros [e [s' H]]. vm_compute in H. discriminate.
Qed.

(** C3, amended.  A renewal call of [_refresh_token] that fails with
    anything but an invalid-grant error is caught and logged there:
    [_refresh_token] returns normally, having made that one call, with the
    credential, its expiry and the cache file as they were. *)
Theorem transient_renewal_failure_swallowed env s c e :
  _lock s = false ->
  _credentials s = Some c ->
  valid env c (utcnow s) = false ->
  PyStr.truthy (refresh_token c) = true ->
  refresh_reply env (calls s) c = RefreshRaises e ->
  Spec.invalid_grant e = false ->
  exists s',
    _refresh_token env s = Returned tt s'
    /\ added s s' = [mkEntry true (EvRenew c)]
    /\ _credentials s' = Some c
    /\ _token_expiry s' = _token_expiry s
    /\ cache_file s' = cache_file s
    /\ _lock s' = false
    /\ log s' = log s ++ [mkLog INFO "Refreshing OAuth token...";
                          mkLog ERROR "Token refresh failed: {e}"].
Proof.
  intros Hl Hc Hv Hr Hrep Hig. unfold Spec.invalid_grant in Hig.
  destruct s as [a b cid sec cr te l th st f now tr lg]. cbn in *. subst.
  run. rewrite Hv, Hr, Hrep. run. rewrite Hig.
  eexists. split; [reflexivity|]. repeat split.
  - added_tac.
  - cbn. now rewrite <- app_assoc.
Qed.

Lemma transient_renewal_failure_swallowed_witness :
  exists s',
    _refresh_token Sample.offline Sample.stale = Returned tt s'
    /\ added Sample.stale s'
       = [mkEntry true
            (EvRenew (Sample.creds (Some "ya29.access") (Some 1000)))]
    /\ _credentials s' = Some (Sample.creds (Some "ya29.access") (Some 1000))
    /\ _token_expiry s' = _token_expiry Sample.stale
    /\ cache_file s' = cache_file Sample.stale
    /\ _lock s' = false
    /\ log s' = log Sample.stale
                ++ [mkLog INFO "Refreshing OAuth token...";
                    mkLog ERROR "Token refresh failed: {e}"].
Proof.
  apply (transient_renewal_failure_swallowed Sample.offline Sample.stale
           (Sample.creds (Some "ya29.access") (Some 1000))
           Sample.transport_error); reflexivity.
Defined.

(** C4, as stated, fails: the renewal call made while the cache is
    loaded at construction is a renewal call too.  When it is rejected
    with invalid_grant, [_load_cached_credentials] only reports failure:
    the rejected credential stays in memory and its record stays on disk.
    [_initialize_credentials] then goes straight to the consent flow; if
    the user declines, construction fails with both still in place. *)
Lemma invalid_grant_at_load_not_invalidated :
  let c := Sample.creds (Some "ya29.access") (Some 1000) in
  let loaded := final (_load_cached_credentials Sample.revoked Sample.at_start) in
  let built := final (_initialize_credentials Sample.revoked Sample.at_start) in
  refresh_reply Sample.revoked (calls Sample.at_start) c
    = RefreshRaises Sample.refresh_error
  /\ Spec.invalid_grant Sample.refresh_error = true
  /\ events loaded = [EvRenew c]
  /\ ~ Spec.fully_invalidated loaded
  /\ _credentials loaded = Some c
  /\ cache_file loaded = cache_file Sample.at_start
  /\ events built = [EvRenew c; EvConsent]
  /\ ~ Spec.fully_invalidated built.
Proof.
  cbv zeta. repeat split; try reflexivity.
  - intros [H _]. vm_compute in H. discriminate.
  - intros [H _]. vm_compute in H. discriminate.
Qed.

(** C4, amended.  When the renewal call of [_refresh_token] is rejected
    with invalid_grant, [_refresh_token] returns with no credential in
    memory and no cache file on disk, having made that one renewal call;
    the next [get_token] starts with the consent flow and makes no
    renewal call at all. *)
Theorem invalid_grant_invalidates env s c e :
  _lock s = false ->
  _credentials s = Some c ->
  valid env c (utcnow s) = false ->
  PyStr.truthy (refresh_token c) = true ->
  refresh_reply env (calls s) c = RefreshRaises e ->
  Spec.invalid_grant e = true ->
  exists s',
    _refresh_token env s = Returned tt s'
    /\ Spec.fully_invalidated s'
    /\ _lock s' = false
    /\ count is_renew (added s s') = 1%nat
    /\ exists rest,
        added s' (final (get_token env s')) = mkEntry true EvConsent :: rest
        /\ count is_renew rest = 0%nat.
Proof.
  intros Hl Hc Hv Hr Hrep Hig. unfold Spec.invalid_grant in Hig.
  assert (Hret : exists s',
             _refresh_token env s = Returned tt s'
             /\ Spec.fully_invalidated s'
             /\ _lock s' = false
             /\ count is_renew (added s s') = 1%nat).
  { destruct s as [a b cid sec cr te l th st f now tr lg]. cbn in *. subst.
    run. rewrite Hv, Hr, Hrep. run. rewrite Hig.
    destruct f as [f|]; eexists; (split; [reflexivity|]);
      (split; [split; reflexivity|]); (split; [reflexivity|]);
      unfold count, added; run; rewrite <- ?app_assoc, skipn_exact;
      reflexivity. }
  destruct Hret as [s' [Hrun [Hinv [Hl' Hcount]]]].
  exists s'. repeat split; trivial; try apply Hinv.
  destruct (get_token_without_credentials env s' Hl' (proj1 Hinv))
    as [rest [Hadd [_ Hren]]].
  exists rest. split; assumption.
Qed.

Lemma invalid_grant_invalidates_witness :
  exists s',
    _refresh_token Sample.revoked Sample.stale = Returned tt s'
    /\ Spec.fully_invalidated s'
    /\ _lock s' = false
    /\ count is_renew (added Sample.stale s') = 1%nat
    /\ exists rest,
        added s' (final (get_token Sample.revoked s'))
        = mkEntry true EvConsent :: rest
        /\ count is_renew rest = 0%nat.
Proof.
  apply (invalid_grant_invalidates Sample.revoked Sample.stale
           (Sample.creds (Some "ya29.access") (Some 1000))
           Sample.refresh_error); reflexivity.
Defined.

(** [get_token] on a provider that needs neither consent nor renewal:
    the only interactions are the one or two requests of the exchange. *)
Lemma get_token_steady env s c e :
  _lock s = false ->
  _credentials s = Some c ->
  _token_expiry s = Some e ->
  PyStr.truthy (token c) = true ->
  expired env c (utcnow s) = false ->
  utcnow s < e - 300 ->
  let o := get_token env s in
  let first := mkEntry true
                 (EvPost (exchange_payload s c (Some (iap_client_id s)))) in
  let retry := mkEntry true (EvPost (exchange_payload s c None)) in
  (added s (final o) = [first] \/ added s (final o) = [first; retry])
  /\ (forall s', o <> Blocked s')
  /\ _lock (final o) = false
  /\ _credentials (final o) = Some c.
Proof.
  intros Hl Hc Hte Ht He Hn.
  assert (Hlt : (utcnow s >=? e - 300) = false)
    by (rewrite Z.geb_leb; apply Z.leb_gt; lia).
  destruct s as [a b cid sec cr te l th st f now tr lg].
  cbn in Hl, Hc, Hte, He, Hlt. subst. cbv zeta. split.
  - unfold added. run. rewrite He, Hlt, Ht. run.
    crack; rewrite <- ?app_assoc, skipn_exact;
      first [left; reflexivity | right; reflexivity].
  - run. rewrite He, Hlt, Ht. run.
    crack; repeat split; intros; discriminate.
Qed.

(** C5.  With a credential whose access token is present and not
    expired, and with [now < expiry - 5 min], [get_token] makes no renewal
    call and runs no consent flow: all it does outside is the audience
    exchange (the request with [audience], followed by the request
    without it when the first answer is not a 200).  It does not block
    and leaves the credential in place. *)
Theorem get_token_fresh_only_exchange env s c e :
  _lock s = false ->
  _credentials s = Some c ->
  expiry c = Some e ->
  _token_expiry s = Some e ->
  PyStr.truthy (token c) = true ->
  expired env c (utcnow s) = false ->
  utcnow s < e - 300 ->
  let o := get_token env s in
  let first := mkEntry true
                 (EvPost (exchange_payload s c (Some (iap_client_id s)))) in
  let retry := mkEntry true (EvPost (exchange_payload s c None)) in
  count is_renew (added s (final o)) = 0%nat
  /\ count is_consent (added s (final o)) = 0%nat
  /\ (added s (final o) = [first] \/ added s (final o) = [first; retry])
  /\ (forall s', o <> Blocked s')
  /\ _lock (final o) = false
  /\ _credentials (final o) = Some c.
Proof.
  intros Hl Hc _ Hte Ht He Hn. cbv zeta.
  destruct (get_token_steady env s c e Hl Hc Hte Ht He Hn)
    as [H [Hb [Hl' Hc']]].
  split; [destruct H as [-> | ->]; reflexivity|].
  split; [destruct H as [-> | ->]; reflexivity|].
  repeat split; assumption.
Qed.

Lemma get_token_fresh_only_exchange_witness :
  let o := get_token Sample.fair Sample.fresh in
  let c := Sample.creds (Some "ya29.access") (Some 1000) in
  let first := mkEntry true
                 (EvPost (exchange_payload Sample.fresh c
                            (Some (iap_client_id Sample.fresh)))) in
  let retry := mkEntry true (EvPost (exchange_payload Sample.fresh c None)) in
  count is_renew (added Sample.fresh (final o)) = 0%nat
  /\ count is_consent (added Sample.fresh (final o)) = 0%nat
  /\ (added Sample.fresh (final o) = [first]
      \/ added Sample.fresh (final o) = [first; retry])
  /\ (forall s', o <> Blocked s')
  /\ _lock (final o) = false
  /\ _credentials (final o) = Some c.
Proof.
  apply (get_token_fresh_only_exchange Sample.fair Sample.fresh
           (Sample.creds (Some "ya29.access") (Some 1000)) 1000);
    reflexivity.
Defined.

(** What [clear_cache] and the next [get_token] do on a provider between
    two calls (lock free), the deletion of the cache file succeeding as
    [unlink] has it: [clear_cache] returns with no credential in memory
    and no cache file on disk, without running a consent flow; calling it
    again changes nothing; and the [get_token] that follows runs the
    consent flow exactly once. *)
Lemma clear_cache_then_get_token_consents_once env s :
  _lock s = false ->
  exists s1,
    clear_cache s = Returned tt s1
    /\ _credentials s1 = None
    /\ cache_file s1 = None
    /\ _lock s1 = false
    /\ count is_consent (added s s1) = 0%nat
    /\ clear_cache s1 = Returned tt s1
    /\ count is_consent (added s1 (final (get_token env s1))) = 1%nat.
Proof.
  intros Hl.
  assert (H1 : exists s1,
             clear_cache s = Returned tt s1
             /\ _credentials s1 = None
             /\ cache_file s1 = None
             /\ _lock s1 = false
             /\ count is_consent (added s s1) = 0%nat
             /\ clear_cache s1 = Returned tt s1).
  { destruct s as [a b cid sec cr te l th st f now tr lg]. cbn in *. subst.
    run. destruct f as [f|]; run; eexists; (split; [reflexivity|]);
      repeat split; unfold count, added; run;
      rewrite <- ?app_assoc; first [rewrite skipn_exact | rewrite skipn_all];
      reflexivity. }
  destruct H1 as [s1 [Hrun [Hc [Hf [Hl1 [Hn Hagain]]]]]].
  exists s1. repeat split; trivial.
  destruct (get_token_without_credentials env s1 Hl1 Hc)
    as [rest [Hadd [Hcons _]]].
  rewrite Hadd. change (mkEntry true EvConsent :: rest)
    with ([mkEntry true EvConsent] ++ rest).
  rewrite count_app, Hcons. reflexivity.
Qed.


(** C6.  The claim: whatever the prior state, [clear_cache] followed by
    [get_token] runs the consent flow exactly once.  What the code does:
    the provider left by a [get_token] that was called inside the
    5-minute margin holds [self._lock] for good (C1); there [clear_cache]
    starts with [with self._lock:] and never returns, so the credential
    is not dropped, the cache file is not removed, no [get_token] follows
    it, and a [get_token] called all the same waits on the same lock: no
    consent flow is run. *)
Theorem clear_cache_after_deadlock_never_consents env s c e :
  _lock s = false ->
  _credentials s = Some c ->
  _token_expiry s = Some e ->
  utcnow s >= e - 300 ->
  exists s1,
    get_token env s = Blocked s1
    /\ clear_cache s1 = Blocked s1
    /\ get_token env s1 = Blocked s1
    /\ count is_consent (added s s1) = 0%nat
    /\ _credentials s1 = Some c
    /\ cache_file s1 = cache_file s.
Proof.
  intros Hl Hc He Hn.
  assert (Hge : (utcnow s >=? e - 300) = true) by (apply Z.geb_le; lia).
  assert (H : exists s1,
             get_token env s = Blocked s1
             /\ _lock s1 = true
             /\ count is_consent (added s s1) = 0%nat
             /\ _credentials s1 = Some c
             /\ cache_file s1 = cache_file s).
  { destruct s as [a b cid sec cr te l th st f now tr lg]. cbn in *. subst.
    unfold get_token, with_lock. cbn. unfold bind at 1. cbn.
    destruct (expired env c now); cbn; rewrite ?Hge; cbn;
      eexists; (split; [reflexivity|]); repeat split;
      unfold count, added; cbn; now rewrite skipn_all. }
  destruct H as [s1 [Hg [Hl1 [Hn1 [Hc1 Hf1]]]]].
  exists s1. repeat split; trivial.
  - unfold clear_cache. now apply with_lock_held.
  - unfold get_token. now apply with_lock_held.
Qed.

Lemma clear_cache_after_deadlock_never_consents_witness :
  exists s1,
    get_token Sample.fair Sample.near_expiry = Blocked s1
    /\ clear_cache s1 = Blocked s1
    /\ get_token Sample.fair s1 = Blocked s1
    /\ count is_consent (added Sample.near_expiry s1) = 0%nat
    /\ _credentials s1 = Some (Sample.creds (Some "ya29.access") (Some 1000))
    /\ cache_file s1 = cache_file Sample.near_expiry.
Proof.
  apply (clear_cache_after_deadlock_never_consents Sample.fair
           Sample.near_expiry
           (Sample.creds (Some "ya29.access") (Some 1000)) 1000);
    [reflexivity | reflexivity | reflexivity | cbn; lia].
Defined.

(** Once the stop event is set, the loop leaves at its next test without
    calling [_refresh_token] and without waiting. *)
Lemma _refresh_loop_exits_when_stopped env n s :
  _stop_refresh s = true ->
  _refresh_loop env (S n) s = Returned LoopExited s.
Proof.
  intros H. cbn. unfold bind, gets. now rewrite H.
Qed.

(** One call of [stop]. *)
Lemma stop_returns s :
  exists s1,
    stop s = Returned tt s1
    /\ _stop_refresh s1 = true
    /\ utcnow s1 - utcnow s <= 5
    /\ _lock s1 = _lock s
    /\ _credentials s1 = _credentials s
    /\ (_refresh_thread s = Some Exited \/
        _refresh_thread s = Some (Alive (Some 0)) ->
        _refresh_thread s1 = Some Exited /\ utcnow s1 = utcnow s)
    /\ (_stop_refresh s = true ->
        _refresh_thread s = Some Exited \/ _refresh_thread s = None ->
        set_log (log s) s1 = s).
Proof.
  destruct s as [a b cid sec cr te l th st f now tr lg].
  destruct th as [[[d|]|]|].
  - (* alive, [d] seconds from terminating *)
    destruct (d <=? 5) eqn:Hd; eexists; run; rewrite Hd; run;
      (split; [reflexivity|]);
      first [apply Z.leb_le in Hd | apply Z.leb_gt in Hd];
      repeat split; try lia;
      try (intros _ [H | H]; discriminate H);
      match goal with
      | H : _ \/ _ |- _ => destruct H as [H | H]; try discriminate H;
                           injection H as ->
      end; try reflexivity; lia.
  - (* alive, never terminating *)
    eexists. run. split; [reflexivity|].
    repeat split; try lia;
      try (intros _ [H | H]; discriminate H);
      match goal with H : _ \/ _ |- _ => now destruct H end.
  - (* terminated *)
    eexists. run. split; [reflexivity|].
    repeat split; try lia. now intros -> _.
  - (* never created *)
    eexists. run. split; [reflexivity|].
    repeat split; try lia;
      try (now intros -> _);
      match goal with H : _ \/ _ |- _ => now destruct H end.
Qed.

(** C8.  From every state of the provider, the lock held or not, the
    thread alive, stuck or gone, [stop] returns normally, and so does a
    second [stop] right after it.  Each call leaves the stop event set and
    takes at most the 5 seconds of the join timeout, whatever the refresh
    interval; a thread that has terminated costs no wait at all and a
    second [stop] then changes nothing but the log; a thread that sits in
    its interruptible wait terminates at once.  After [stop] the loop
    exits at its next test. *)
Theorem stop_twice_returns s :
  exists s1 s2,
    stop s = Returned tt s1
    /\ stop s1 = Returned tt s2
    /\ _stop_refresh s1 = true
    /\ _stop_refresh s2 = true
    /\ utcnow s1 - utcnow s <= 5
    /\ utcnow s2 - utcnow s1 <= 5
    /\ _lock s2 = _lock s
    /\ _credentials s2 = _credentials s
    /\ (_refresh_thread s = Some Exited \/
        _refresh_thread s = Some (Alive (Some 0)) ->
        _refresh_thread s1 = Some Exited /\ utcnow s2 = utcnow s)
    /\ (_refresh_thread s1 = Some Exited \/ _refresh_thread s1 = None ->
        set_log (log s1) s2 = s1)
    /\ forall env n, _refresh_loop env (S n) s1 = Returned LoopExited s1.
Proof.
  destruct (stop_returns s) as [s1 [H1 [F1 [T1 [L1 [C1 [E1 _]]]]]]].
  destruct (stop_returns s1) as [s2 [H2 [F2 [T2 [L2 [C2 [E2 I2]]]]]]].
  exists s1, s2. repeat split; trivial; try congruence.
  - apply E1. assumption.
  - destruct (E1 H) as [Hth Hnow].
    destruct (E2 (or_introl Hth)) as [_ Hnow2]. congruence.
  - now apply I2.
  - intros env n. now apply _refresh_loop_exits_when_stopped.
Qed.

(** C9.  A failure of [_save_credentials], at whichever step, never
    leaves it: the method returns, with one ERROR record in the log and the
    credential in memory untouched.  So a consent flow that was granted
    and a renewal call that succeeded (in [_refresh_token] and while
    loading the cache) complete with the new credential in memory
    whether or not it could be saved. *)
Theorem save_failure_never_propagates env s :
  (exists s',
      _save_credentials env s = Returned tt s'
      /\ _credentials s' = _credentials s
      /\ (save_fault env (calls s) <> NoFault ->
          exists l,
            log s' = l ++ [mkLog ERROR "Failed to save credentials: {e}"]))
  /\ (forall c,
        flow_reply env (calls s) (desktop_client_id s)
          (desktop_client_secret s) = FlowOk c ->
        exists s',
          _perform_oauth_flow env s = Returned tt s'
          /\ _credentials s' = Some c
          /\ (save_fault env (S (calls s)) <> NoFault ->
              In (mkLog ERROR "Failed to save credentials: {e}") (log s')))
  /\ (forall c c',
        _lock s = false ->
        _credentials s = Some c ->
        valid env c (utcnow s) = false ->
        PyStr.truthy (refresh_token c) = true ->
        refresh_reply env (calls s) c = RefreshOk c' ->
        exists s',
          _refresh_token env s = Returned tt s'
          /\ _credentials s' = Some c'
          /\ _lock s' = false
          /\ (save_fault env (S (calls s)) <> NoFault ->
              In (mkLog ERROR "Failed to save credentials: {e}") (log s')))
  /\ (forall f d c c',
        cache_file s = Some f ->
        content f = Json d ->
        parse_reply env d = ParseOk c ->
        valid env c (utcnow s) = false ->
        expired env c (utcnow s) = true ->
        PyStr.truthy (refresh_token c) = true ->
        refresh_reply env (calls s) c = RefreshOk c' ->
        exists s',
          _load_cached_credentials env s = Returned true s'
          /\ _credentials s' = Some c').
Proof.
  repeat split.
  - destruct (_save_credentials_returns env s)
      as [s' [H [Hc [_ [_ [_ [_ Hlog]]]]]]].
    exists s'. repeat split; assumption.
  - intros c Hflow.
    destruct s as [a b cid sec cr te l th st f now tr lg]. cbn in Hflow.
    run. rewrite Hflow. run.
    rewrite length_app, Nat.add_comm. cbn [length Nat.add].
    destruct (save_fault env (S (length tr))) eqn:Hf; run;
      destruct c as [t r u ci cs sc [ex|]]; run;
      eexists; (split; [reflexivity|]); (split; [reflexivity|]);
      intros Hne; try (now elim Hne);
      rewrite !in_app_iff; cbn; intuition.
  - intros c c' Hl Hc Hv Hr Hrep.
    destruct s as [a b cid sec cr te l th st f now tr lg]. cbn in *. subst.
    run. rewrite Hv, Hr, Hrep. run.
    rewrite length_app, Nat.add_comm. cbn [length Nat.add].
    destruct (save_fault env (S (length tr))) eqn:Hf; run;
      destruct c' as [t r u ci cs sc [ex|]]; run;
      eexists; (split; [reflexivity|]); (split; [reflexivity|]);
      (split; [reflexivity|]);
      intros Hne; try (now elim Hne);
      rewrite !in_app_iff; cbn; intuition.
  - intros f d c c' Hfile Hcont Hparse Hv He Hr Hrep.
    destruct s as [a b cid sec cr te l th st f0 now tr lg]. cbn in *. subst.
    run. rewrite Hcont, Hparse. run. rewrite Hv, He, Hr. cbn [andb]. run.
    rewrite Hrep. run.
    destruct (save_fault env _) eqn:Hf; run;
      destruct c' as [t r u ci cs sc [ex|]]; run;
      eexists; (split; [reflexivity|]); reflexivity.
Qed.

Lemma save_failure_never_propagates_witness :
  save_fault Sample.full_disk (S (calls Sample.stale)) <> NoFault
  /\ exists s',
      _refresh_token Sample.full_disk Sample.stale = Returned tt s'
      /\ _credentials s' = Some (Sample.creds (Some "ya29.renewed") (Some 9000))
      /\ _lock s' = false
      /\ (save_fault Sample.full_disk (S (calls Sample.stale)) <> NoFault ->
          In (mkLog ERROR "Failed to save credentials: {e}") (log s')).
Proof.
  split; [discriminate|].
  apply (proj1 (proj2 (proj2
           (save_failure_never_propagates Sample.full_disk Sample.stale)))
           (Sample.creds (Some "ya29.access") (Some 1000)));
    reflexivity.
Defined.

(** C10.  Whenever [get_token] sends a request to the token endpoint,
    the provider holds a credential with a non-empty access token; and
    when, past the consent and renewal steps, the access token is unset
    or empty, the call raises "Failed to obtain valid credentials"
    without any interaction with the outside. *)
Theorem no_exchange_without_access_token env s :
  let o := get_token env s in
  (forall x,
      In x (added s (final o)) ->
      is_post (ev x) = true ->
      exists c,
        _credentials (final o) = Some c /\ PyStr.truthy (token c) = true)
  /\ (forall c e,
        _lock s = false ->
        _credentials s = Some c ->
        PyStr.truthy (token c) = false ->
        expired env c (utcnow s) = false ->
        _token_expiry s = Some e ->
        utcnow s < e - 300 ->
        exists s',
          o = Raised (RuntimeError "Failed to obtain valid credentials") s'
          /\ added s s' = []).
Proof.
  cbv zeta. split.
  - destruct s as [a b cid sec cr te l th st f now tr lg].
    unfold added. run. crack.
    all: rewrite <- ?app_assoc;
      first [rewrite skipn_exact | rewrite skipn_all]; cbn [app].
    all: intros x Hin Hp; cbn in Hin.
    all: repeat (destruct Hin as [<- | Hin]; [try discriminate Hp|]);
      try contradiction.
    all: eexists; split; [reflexivity | assumption].
  - intros c e Hl Hc Ht He Hte Hn.
    assert (Hlt : (utcnow s >=? e - 300) = false)
      by (rewrite Z.geb_leb; apply Z.leb_gt; lia).
    destruct s as [a b cid sec cr te l th st f now tr lg]. cbn in *. subst.
    run. rewrite He, Hlt, Ht. eexists. split; [reflexivity|].
    unfold added. cbn. apply skipn_all.
Qed.

Lemma no_exchange_without_access_token_witness :
  (exists x,
      In x (added Sample.fresh (final (get_token Sample.fair Sample.fresh)))
      /\ is_post (ev x) = true
      /\ exists c,
          _credentials (final (get_token Sample.fair Sample.fresh)) = Some c
          /\ PyStr.truthy (token c) = true)
  /\ exists s',
      get_token Sample.fair Sample.tokenless
      = Raised (RuntimeError "Failed to obtain valid credentials") s'
      /\ added Sample.tokenless s' = [].
Proof.
  split.
  - exists (mkEntry true
              (EvPost (exchange_payload Sample.fresh
                         (Sample.creds (Some "ya29.access") (Some 1000))
                         (Some (iap_client_id Sample.fresh))))).
    assert (Hin : In (mkEntry true
                        (EvPost (exchange_payload Sample.fresh
                                   (Sample.creds (Some "ya29.access")
                                      (Some 1000))
                                   (Some (iap_client_id Sample.fresh)))))
                    (added Sample.fresh
                       (final (get_token Sample.fair Sample.fresh))))
      by (left; reflexivity).
    split; [exact Hin|]. split; [reflexivity|].
    exact (proj1 (no_exchange_without_access_token Sample.fair Sample.fresh)
             _ Hin eq_refl).
  - apply (proj2 (no_exchange_without_access_token Sample.fair
                    Sample.tokenless)
             (Sample.creds None (Some 1000)) 1000);
      reflexivity.
Defined.

(** * Further properties of the provider

    What follows goes beyond the claims: properties of the same code,
    and of its callers, read off the source. *)

(** X1.  Every interaction with the outside that [get_token],
    [_refresh_token], [clear_cache] and [_initialize_credentials] make
    (consent flow, renewal, token request, saving and removing the cache
    file) happens while [self._lock] is held, whatever the collaborators
    answer and whether or not the call comes back. *)
Theorem interactions_only_under_lock env s :
  _lock s = false ->
  all_held (added s (final (get_token env s)))
  /\ all_held (added s (final (_refresh_token env s)))
  /\ all_held (added s (final (clear_cache s)))
  /\ all_held (added s (final (_initialize_credentials env s))).
Proof. exact (lock_discipline env s). Qed.

Lemma interactions_only_under_lock_witness :
  all_held (added Sample.stale (final (get_token Sample.fair Sample.stale)))
  /\ all_held
       (added Sample.stale (final (_refresh_token Sample.fair Sample.stale)))
  /\ all_held (added Sample.stale (final (clear_cache Sample.stale)))
  /\ all_held
       (added Sample.stale
          (final (_initialize_credentials Sample.fair Sample.stale))).
Proof.
  apply (interactions_only_under_lock Sample.fair Sample.stale). reflexivity.
Defined.

Ltac synced_tac Hs :=
  unfold synced in *; cbn in *; intros ? ? Hcr Hex;
  first [ discriminate Hcr
        | injection Hcr as <-; cbn in Hex;
          first [ discriminate Hex | now injection Hex as <- | congruence
                | now eapply Hs; eauto ]
        | now eapply Hs; eauto ].

(** X2.  [_token_expiry] follows the credential: if the expiry on record
    is the expiry of the credential held before a call of [get_token],
    [_refresh_token], [clear_cache] or [stop], it is so after the call,
    however the call ends. *)
Theorem expiry_stays_synced env s :
  synced s ->
  synced (final (get_token env s))
  /\ synced (final (_refresh_token env s))
  /\ synced (final (clear_cache s))
  /\ synced (final (stop s)).
Proof.
  intros Hs. destruct s as [a b cid sec cr te l th st f now tr lg].
  repeat split; run; crack; synced_tac Hs.
Qed.

Lemma expiry_stays_synced_witness :
  synced Sample.stale
  /\ synced (final (get_token Sample.fair Sample.stale))
  /\ synced (final (_refresh_token Sample.fair Sample.stale))
  /\ synced (final (clear_cache Sample.stale))
  /\ synced (final (stop Sample.stale)).
Proof.
  assert (H : synced Sample.stale).
  { intros c e Hc He. vm_compute in Hc. injection Hc as <-.
    vm_compute in He. injection He as <-. reflexivity. }
  split; [exact H | exact (expiry_stays_synced Sample.fair Sample.stale H)].
Defined.

(** With [unlink] succeeding, [_refresh_token] comes back by return, and
    leaves the clock, the stop event and the thread alone. *)
Lemma _refresh_token_returns env s :
  _lock s = false ->
  exists s',
    _refresh_token env s = Returned tt s'
    /\ _lock s' = false
    /\ utcnow s' = utcnow s
    /\ _stop_refresh s' = _stop_refresh s
    /\ refresh_interval s' = refresh_interval s
    /\ _refresh_thread s' = _refresh_thread s.
Proof.
  intros Hl. destruct s as [a b cid sec cr te l th st f now tr lg].
  cbn in Hl. subst. run. crack; eexists; repeat split.
Qed.




(** X4.  One call of [_refresh_token] makes at most one renewal or one
    consent flow, never both; it touches nothing unless the lock is free
    and the credential held is not valid; it renews only a credential
    with a refresh token and asks for consent only for one without. *)
Theorem _refresh_token_renews_only_when_needed env s :
  let new := added s (final (_refresh_token env s)) in
  (count is_renew new <= 1)%nat
  /\ (count is_consent new <= 1)%nat
  /\ (count is_renew new + count is_consent new <= 1)%nat
  /\ (new <> [] ->
      exists c, _lock s = false /\ _credentials s = Some c /\ valid env c (utcnow s) = false)
  /\ (count is_renew new = 1%nat ->
      exists c, _credentials s = Some c /\ PyStr.truthy (refresh_token c) = true)
  /\ (count is_consent new = 1%nat ->
      exists c, _credentials s = Some c /\ PyStr.truthy (refresh_token c) = false).
Proof.
  destruct s as [a b cid sec cr te l th st f now tr lg]. cbv zeta.
  unfold count, added. run. crack.
  all: rewrite <- ?app_assoc; first [rewrite skipn_exact | rewrite skipn_all]; cbn.
  all: repeat split; try lia; try (intros H; try discriminate H; try (now elim H)).
  all: try (eexists; repeat split; eassumption).
  all: try (eexists; repeat split; try eassumption; reflexivity).
Qed.




(** X6.  A token returned by [get_token] is the [id_token] field of a
    JSON answer of the token endpoint to a request made during this very
    call, with grant type [refresh_token] and the desktop client id. *)
Theorem get_token_returns_a_granted_id_token env s t s' :
  get_token env s = Returned t s' ->
  exists n p r d,
    post_reply env n p = PostResponse r
    /\ json r = Some d
    /\ dict_get "id_token" d = Some t
    /\ In (EvPost p) (map ev (added s s'))
    /\ p_grant_type p = "refresh_token"
    /\ p_client_id p = desktop_client_id s.
Proof.
  assert (H : match get_token env s with
              | Returned t s' =>
                  exists n p r d,
                  post_reply env n p = PostResponse r
                  /\ json r = Some d
                  /\ dict_get "id_token" d = Some t
                  /\ In (EvPost p) (map ev (added s s'))
                  /\ p_grant_type p = "refresh_token"
                  /\ p_client_id p = desktop_client_id s
              | _ => True
              end).
  { destruct s as [a b cid sec cr te l th st f now tr lg].
    unfold added. run. crack; trivial.
    all: rewrite <- ?app_assoc; rewrite skipn_exact; cbn.
    all: do 4 eexists; split; [eassumption|]; split; [eassumption|];
      split; [eassumption|]; split; [|split; reflexivity]; cbn; tauto. }
  intros Heq. now rewrite Heq in H.
Qed.

Lemma get_token_returns_a_granted_id_token_witness :
  exists n p r d,
    post_reply Sample.fair n p = PostResponse r
    /\ json r = Some d
    /\ dict_get "id_token" d = Some "eyJ.id.token"
    /\ In (EvPost p)
         (map ev (added Sample.fresh
                    (final (get_token Sample.fair Sample.fresh))))
    /\ p_grant_type p = "refresh_token"
    /\ p_client_id p = desktop_client_id Sample.fresh.
Proof.
  apply (get_token_returns_a_granted_id_token Sample.fair Sample.fresh
           "eyJ.id.token" (final (get_token Sample.fair Sample.fresh))).
  reflexivity.
Defined.

(** X7.  First start: with no cache file and a consent flow that
    succeeds, [_initialize_credentials] runs the flow once, writes the
    credential to the cache file with mode 0o600, and records the
    credential's expiry (one hour from now if it has none). *)
Theorem first_start_consents_and_persists env s c :
  _lock s = false ->
  cache_file s = None ->
  flow_reply env (calls s) (desktop_client_id s) (desktop_client_secret s)
    = FlowOk c ->
  save_fault env (S (calls s)) = NoFault ->
  exists s',
    _initialize_credentials env s = Returned tt s'
    /\ added s s' = [mkEntry true EvConsent; mkEntry true EvSave]
    /\ _credentials s' = Some c
    /\ cache_file s' = Some (mkFile (Json c) 384)
    /\ _token_expiry s'
       = Some (match expiry c with Some e => e | None => utcnow s + 3600 end)
    /\ _lock s' = false.
Proof.
  intros Hl Hf Hflow Hsave.
  destruct s as [a b cid sec cr te l th st f now tr lg]. cbn in *. subst.
  unfold added. run. rewrite Hflow. run.
  rewrite length_app, Nat.add_comm. cbn [length Nat.add]. rewrite Hsave. run.
  destruct c as [t r u ci cs sc [ex|]]; run; eexists; (split; [reflexivity|]);
    repeat split; rewrite <- ?app_assoc, skipn_exact; reflexivity.
Qed.

Lemma first_start_consents_and_persists_witness :
  exists s',
    _initialize_credentials Sample.fair (Sample.provider None None 100 None)
    = Returned tt s'
    /\ added (Sample.provider None None 100 None) s'
       = [mkEntry true EvConsent; mkEntry true EvSave]
    /\ _credentials s' = Some (Sample.creds (Some "ya29.granted") (Some 9000))
    /\ cache_file s'
       = Some (mkFile (Json (Sample.creds (Some "ya29.granted") (Some 9000)))
                 384)
    /\ _token_expiry s'
       = Some (match expiry (Sample.creds (Some "ya29.granted") (Some 9000))
               with
               | Some e => e
               | None => utcnow (Sample.provider None None 100 None) + 3600
               end)
    /\ _lock s' = false.
Proof.
  apply (first_start_consents_and_persists Sample.fair
           (Sample.provider None None 100 None)
           (Sample.creds (Some "ya29.granted") (Some 9000)));
    reflexivity.
Defined.



(** X9.  Round trip through the cache file: what [_save_credentials]
    writes, [_load_cached_credentials] of a later process reads back as
    the same credential, with its expiry on record and without any
    interaction, provided the credential is still valid then. *)
Theorem save_then_load_round_trip env s c w :
  _credentials s = Some c ->
  save_fault env (calls s) = NoFault ->
  parse_reply env c = ParseOk c ->
  valid env c (utcnow w) = true ->
  cache_file w = cache_file (final (_save_credentials env s)) ->
  cache_file (final (_save_credentials env s)) = Some (mkFile (Json c) 384)
  /\ exists w',
      _load_cached_credentials env w = Returned true w'
      /\ _credentials w' = Some c
      /\ _token_expiry w'
         = Some (match expiry c with Some e => e | None => utcnow w + 3600 end)
      /\ added w w' = []
      /\ cache_file w' = cache_file w.
Proof.
  intros Hc Hsave Hparse Hvalid Hfile.
  assert (Hsaved : cache_file (final (_save_credentials env s))
                   = Some (mkFile (Json c) 384)).
  { destruct s as [a b cid sec cr te l th st f now tr lg]. cbn in *. subst.
    run. rewrite Hsave. run. reflexivity. }
  split; [exact Hsaved|]. rewrite Hsaved in Hfile.
  destruct w as [a b cid sec cr te l th st f now tr lg]. cbn in *. subst.
  run. cbn [content]. rewrite Hparse. run. rewrite Hvalid.
  destruct c as [t r u ci cs sc [ex|]]; run; eexists; (split; [reflexivity|]);
    repeat split; unfold added; cbn; apply skipn_all.
Qed.

Lemma save_then_load_round_trip_witness :
  let c := Sample.creds (Some "ya29.access") (Some 1000) in
  let w := Sample.provider None None 100 (Some (mkFile (Json c) 384)) in
  cache_file (final (_save_credentials Sample.fair Sample.fresh))
  = Some (mkFile (Json c) 384)
  /\ exists w',
      _load_cached_credentials Sample.fair w = Returned true w'
      /\ _credentials w' = Some c
      /\ _token_expiry w'
         = Some (match expiry c with Some e => e | None => utcnow w + 3600 end)
      /\ added w w' = []
      /\ cache_file w' = cache_file w.
Proof.
  apply (save_then_load_round_trip Sample.fair Sample.fresh
           (Sample.creds (Some "ya29.access") (Some 1000))
           (Sample.provider None None 100
              (Some (mkFile
                       (Json (Sample.creds (Some "ya29.access") (Some 1000)))
                       384))));
    reflexivity.
Defined.

(** X10.  A save that fails while dumping leaves a truncated cache
    file; a later process does not load it ([_load_cached_credentials]
    returns [False] without any interaction) and
    [_initialize_credentials] goes to the consent flow. *)
Theorem interrupted_save_falls_back_to_consent env s c e w :
  _credentials s = Some c ->
  save_fault env (calls s) = DumpFails e ->
  _lock w = false ->
  cache_file w = cache_file (final (_save_credentials env s)) ->
  (exists m, cache_file w = Some (mkFile Truncated m))
  /\ (exists w',
        _load_cached_credentials env w = Returned false w'
        /\ added w w' = []
        /\ _credentials w' = _credentials w
        /\ cache_file w' = cache_file w)
  /\ exists rest,
      added w (final (_initialize_credentials env w))
      = mkEntry true EvConsent :: rest.
Proof.
  intros Hc Hsave Hl Hfile.
  assert (Hsaved : exists m, cache_file (final (_save_credentials env s))
                             = Some (mkFile Truncated m)).
  { destruct s as [a b cid sec cr te l th st f now tr lg]. cbn in *. subst.
    run. rewrite Hsave. run. eexists. reflexivity. }
  destruct Hsaved as [m Hsaved]. rewrite Hsaved in Hfile.
  split; [now exists m|].
  destruct w as [a b cid sec cr te l th st f now tr lg]. cbn in *. subst.
  split.
  - run. cbn [content]. run. eexists. split; [reflexivity|]. repeat split.
    unfold added. cbn. apply skipn_all.
  - unfold added. run. cbn [content]. run. crack.
    all: rewrite <- ?app_assoc; rewrite skipn_exact; cbn.
    all: eexists; reflexivity.
Qed.

Lemma interrupted_save_falls_back_to_consent_witness :
  let w := Sample.provider None None 100
             (cache_file
                (final (_save_credentials Sample.full_disk Sample.fresh))) in
  (exists m, cache_file w = Some (mkFile Truncated m))
  /\ (exists w',
        _load_cached_credentials Sample.full_disk w = Returned false w'
        /\ added w w' = []
        /\ _credentials w' = _credentials w
        /\ cache_file w' = cache_file w)
  /\ exists rest,
      added w (final (_initialize_credentials Sample.full_disk w))
      = mkEntry true EvConsent :: rest.
Proof.
  apply (interrupted_save_falls_back_to_consent Sample.full_disk Sample.fresh
           (Sample.creds (Some "ya29.access") (Some 1000)) Sample.disk_full
           (Sample.provider None None 100
              (cache_file
                 (final (_save_credentials Sample.full_disk Sample.fresh)))));
    reflexivity.
Defined.

(** The expiry on record after construction is the credential's. *)
Lemma constructed_synced env iap interval gid gsec w s :
  __init__ env iap interval gid gsec w = Returned tt s -> synced s.
Proof.
  assert (H : match __init__ env iap interval gid gsec w with
              | Returned _ s => synced s
              | _ => True
              end).
  { destruct w as [a b cid sec cr te l th st f now tr lg].
    unfold __init__. run. destruct gid as [gid|]; run; crack; trivial;
      unfold synced; cbn; intros ? ? Hcr Hex;
      injection Hcr as <-; cbn in Hex; congruence. }
  intros Heq. now rewrite Heq in H.
Qed.

(** X11.  A provider whose constructor returned has the lock free, holds
    a credential whose expiry is the expiry on record, and has its
    background thread started and its stop event clear. *)
Theorem constructed_provider_is_ready env iap interval gid gsec w s :
  __init__ env iap interval gid gsec w = Returned tt s ->
  _lock s = false
  /\ (exists c, _credentials s = Some c)
  /\ (exists e, _token_expiry s = Some e)
  /\ synced s
  /\ _refresh_thread s = Some (Alive (Some 0))
  /\ _stop_refresh s = false.
Proof.
  intros Hinit.
  destruct (constructed_provider _ _ _ _ _ _ _ Hinit)
    as [Hl [Hc [He [Ht Hs]]]].
  repeat split; trivial. exact (constructed_synced _ _ _ _ _ _ _ Hinit).
Qed.

Lemma constructed_provider_is_ready_witness :
  let s := final (__init__ Sample.fair "iap-client.apps.googleusercontent.com"
                    3000 None None (Sample.provider None None 100 None)) in
  _lock s = false
  /\ (exists c, _credentials s = Some c)
  /\ (exists e, _token_expiry s = Some e)
  /\ synced s
  /\ _refresh_thread s = Some (Alive (Some 0))
  /\ _stop_refresh s = false.
Proof.
  apply (constructed_provider_is_ready Sample.fair
           "iap-client.apps.googleusercontent.com" 3000 None None
           (Sample.provider None None 100 None)).
  vm_compute. reflexivity.
Defined.

(** X12.  Construction composed with [get_token]: when there is no
    cache file and the consent flow yields a credential that is outside
    the 5-minute margin, the constructor asks for consent exactly once,
    and the first [get_token] asks for no consent and no renewal but goes
    to the token endpoint. *)
Theorem construction_then_get_token_consents_once
    env iap interval gid gsec w c e :
  cache_file w = None ->
  flow_reply env (calls w) (getenv gid DEFAULT_DESKTOP_CLIENT_ID)
    (getenv gsec DEFAULT_DESKTOP_CLIENT_SECRET) = FlowOk c ->
  expiry c = Some e ->
  utcnow w < e - 300 ->
  expired env c (utcnow w) = false ->
  PyStr.truthy (token c) = true ->
  exists s,
    __init__ env iap interval gid gsec w = Returned tt s
    /\ count is_consent (added w s) = 1%nat
    /\ count is_renew (added w s) = 0%nat
    /\ count is_consent (added s (final (get_token env s))) = 0%nat
    /\ count is_renew (added s (final (get_token env s))) = 0%nat
    /\ (0 < count is_post (added s (final (get_token env s))))%nat.
Proof.
  intros Hf Hflow Hex Hn He Ht.
  assert (Hinit : exists s,
             __init__ env iap interval gid gsec w = Returned tt s
             /\ added w s = [mkEntry true EvConsent; mkEntry true EvSave]
             /\ _lock s = false /\ _credentials s = Some c
             /\ _token_expiry s = Some e /\ utcnow s = utcnow w).
  { destruct w as [a b cid sec cr te l th st f now tr lg]. cbn in *. subst.
    unfold __init__, added. run.
    destruct gid as [gid|], gsec as [gsec|]; run; cbn [getenv] in Hflow;
      rewrite Hflow; run;
      destruct c as [t r u ci cs sc ex]; cbn in Hex; subst ex; run;
      destruct (save_fault env _); run; crack;
      eexists; (split; [reflexivity|]);
      repeat split; rewrite <- ?app_assoc, skipn_exact; reflexivity. }
  destruct Hinit as [s [Hrun [Hadd [Hl [Hc [Hte Hnow]]]]]].
  exists s. split; [exact Hrun|]. rewrite Hadd.
  split; [reflexivity|]. split; [reflexivity|].
  rewrite <- Hnow in Hn, He.
  destruct (get_token_steady env s c e Hl Hc Hte Ht He Hn) as [H _].
  cbv zeta in H. destruct H as [-> | ->]; repeat split; cbn; lia.
Qed.

Lemma construction_then_get_token_consents_once_witness :
  exists s,
    __init__ Sample.fair "iap-client.apps.googleusercontent.com" 3000
      None None (Sample.provider None None 100 None) = Returned tt s
    /\ count is_consent (added (Sample.provider None None 100 None) s) = 1%nat
    /\ count is_renew (added (Sample.provider None None 100 None) s) = 0%nat
    /\ count is_consent (added s (final (get_token Sample.fair s))) = 0%nat
    /\ count is_renew (added s (final (get_token Sample.fair s))) = 0%nat
    /\ (0 < count is_post (added s (final (get_token Sample.fair s))))%nat.
Proof.
  apply (construction_then_get_token_consents_once Sample.fair
           "iap-client.apps.googleusercontent.com" 3000 None None
           (Sample.provider None None 100 None)
           (Sample.creds (Some "ya29.granted") (Some 9000)) 9000);
    first [vm_compute; reflexivity | cbn; lia].
Defined.

(** X13.  The background loop: while the stop event is clear and the
    lock is free at each wake-up, no failure of a renewal ends the loop;
    after [n] rounds it is still running and the clock has advanced by
    [n] waits of [refresh_interval] seconds. *)
Theorem _refresh_loop_keeps_going env n s :
  _lock s = false ->
  _stop_refresh s = false ->
  exists s',
    _refresh_loop env n s = Returned LoopRunning s'
    /\ utcnow s' = utcnow s + Z.of_nat n * Z.max 0 (refresh_interval s)
    /\ _lock s' = false
    /\ _stop_refresh s' = false.
Proof.
  revert s. induction n as [|n IH]; intros s Hl Hst.
  - exists s. cbn. repeat split; trivial. lia.
  - set (s1 := set_utcnow (utcnow s + Z.max 0 (refresh_interval s)) s).
    destruct (_refresh_token_returns env s1) as [s2 [Hr [Hl2 [Hn2 [Hs2 [Hi2 _]]]]]].
    { now destruct s. }
    destruct (IH s2) as [s3 [Hloop [Hn3 [Hl3 Hs3]]]]; trivial.
    { rewrite Hs2. now destruct s. }
    exists s3. split.
    + cbn [_refresh_loop]. unfold bind at 1. unfold gets at 1. rewrite Hst.
      unfold bind at 1. unfold gets at 1.
      unfold bind at 1. unfold event_wait, bind at 1. unfold gets at 1. rewrite Hst.
      unfold bind at 1. unfold gets at 1. unfold bind at 1. unfold modify at 1.
      unfold ret at 1. unfold bind at 1. unfold try_except.
      fold s1. rewrite Hr. exact Hloop.
    + repeat split; trivial. rewrite Hn3, Hn2, Hi2.
      replace (utcnow s1) with (utcnow s + Z.max 0 (refresh_interval s)) by now destruct s.
      replace (refresh_interval s1) with (refresh_interval s) by now destruct s.
      lia.
Qed.

Lemma _refresh_loop_keeps_going_witness :
  exists s',
    _refresh_loop Sample.offline 3 Sample.fresh = Returned LoopRunning s'
    /\ utcnow s'
       = utcnow Sample.fresh
         + Z.of_nat 3 * Z.max 0 (refresh_interval Sample.fresh)
    /\ _lock s' = false
    /\ _stop_refresh s' = false.
Proof.
  apply (_refresh_loop_keeps_going Sample.offline 3 Sample.fresh);
    reflexivity.
Defined.

(** X14.  Once the lock is held for good, the background loop blocks at
    its next wake-up, in [_refresh_token], without any renewal. *)
Theorem _refresh_loop_blocks_on_stuck_lock env n s :
  _lock s = true ->
  _stop_refresh s = false ->
  exists s', _refresh_loop env (S n) s = Blocked s' /\ added s s' = [].
Proof.
  intros Hl Hst. destruct s as [a b cid sec cr te l th st f now tr lg].
  cbn in Hl, Hst. subst. eexists. split.
  - cbn [_refresh_loop]. run. reflexivity.
  - unfold added. cbn. apply skipn_all.
Qed.

Lemma _refresh_loop_blocks_on_stuck_lock_witness :
  let s := final (get_token Sample.fair Sample.near_expiry) in
  exists s', _refresh_loop Sample.fair 1 s = Blocked s' /\ added s s' = [].
Proof.
  apply (_refresh_loop_blocks_on_stuck_lock Sample.fair 0
           (final (get_token Sample.fair Sample.near_expiry)));
    vm_compute; reflexivity.
Defined.

(** * Properties of the Airflow client ([airflow_http_client.py]) *)

(** ** [rstrip("/")] *)

Lemma rstrip_slash_slashes n : PyVal.rstrip_slash (slashes n) = EmptyString.
Proof. induction n as [|n IH]; cbn; [reflexivity|]. now rewrite IH. Qed.

Lemma rstrip_slash_empty_inv h :
  PyVal.rstrip_slash h = EmptyString -> exists n, h = slashes n.
Proof.
  induction h as [|c r IH]; cbn; intros H.
  - now exists O.
  - destruct (PyVal.rstrip_slash r) eqn:Hr; [|discriminate].
    destruct (Ascii.eqb c "/") eqn:Hc; [|discriminate].
    apply Ascii.eqb_eq in Hc. subst c.
    destruct (IH eq_refl) as [n ->]. now exists (S n).
Qed.

Lemma rstrip_slash_decompose h :
  exists n, h = (PyVal.rstrip_slash h ++ slashes n)%string.
Proof.
  induction h as [|c r [n IH]]; cbn.
  - now exists O.
  - destruct (PyVal.rstrip_slash r) eqn:Hr.
    + destruct (rstrip_slash_empty_inv r Hr) as [k ->].
      destruct (Ascii.eqb c "/") eqn:Hc.
      * apply Ascii.eqb_eq in Hc. subst c. now exists (S k).
      * exists k. reflexivity.
    + exists n. cbn. f_equal. exact IH.
Qed.

Lemma rstrip_slash_no_trailing h :
  PyVal.ends_with_slash (PyVal.rstrip_slash h) = false.
Proof.
  induction h as [|c r IH]; cbn; [reflexivity|].
  destruct (PyVal.rstrip_slash r) eqn:Hr.
  - destruct (Ascii.eqb c "/") eqn:Hc; cbn; [reflexivity | exact Hc].
  - cbn in *. exact IH.
Qed.

Lemma rstrip_slash_fixed h :
  PyVal.ends_with_slash h = false -> PyVal.rstrip_slash h = h.
Proof.
  induction h as [|c r IH]; cbn; [reflexivity|]. intros H.
  destruct r as [|c' r'].
  - cbn. now rewrite H.
  - rewrite (IH H). reflexivity.
Qed.

Lemma rstrip_slash_app_slashes h n :
  PyVal.rstrip_slash (h ++ slashes n) = PyVal.rstrip_slash h.
Proof.
  induction h as [|c r IH]; cbn.
  - apply rstrip_slash_slashes.
  - now rewrite IH.
Qed.


(** ** Symbolic execution of the client *)

Ltac hrun :=
  cbv beta iota zeta delta
    [_request _get_headers _refresh_airflow_jwt provider_get_token
     httpx_request http_raise_for_status http_json subscript client_logger
     client_init fmt get_health get_version list_dags get_dag pause_dag
     unpause_dag list_dag_runs get_dag_run trigger_dag get_task_instance
     get_task_logs list_variables get_variable set_variable delete_variable
     list_connections get_connection list_pools get_pool list_import_errors
     get_import_error
     pret pbind praise ptry pgets pmodify pwhen res_state
     set_provider set_jwt set_sent set_client_log
     airflow_host token_provider airflow_username airflow_password
     _airflow_jwt_token sent client_log negb].

Ltac hcrack :=
  repeat match goal with
         | |- context [match ?x with _ => _ end] =>
             lazymatch x with
             | context [match _ with _ => _ end] => fail
             | _ => destruct x eqn:?; hrun
             end
         end.

(** What [_refresh_airflow_jwt] does, by what [get_token] does. *)
Lemma _refresh_airflow_jwt_cases henv c :
  let R := _refresh_airflow_jwt henv c in
  match get_token (auth_env henv) (token_provider c) with
  | Returned t s =>
      sent (res_state R) = sent c ++ [jwt_request c t (calls s)]
      /\ token_provider (res_state R) = s
      /\ match R with
         | Ok _ c' =>
             exists r d,
             httpx_reply henv (length (sent c)) (jwt_request c t (calls s))
               = Responded r
             /\ status_error r = None
             /\ body r = Some (VDict d)
             /\ PyVal.lookup "access_token" d = Some (_airflow_jwt_token c')
         | Err _ c' => _airflow_jwt_token c' = _airflow_jwt_token c
         | Stuck _ => False
         end
  | Raised e s => R = Err e (set_provider s c)
  | Blocked s => R = Stuck (set_provider s c)
  end.
Proof.
  destruct c as [host p user pw jwt snt lg]. unfold jwt_request. hrun.
  destruct (get_token (auth_env henv) p) as [t s|e s|s]; hrun;
    try reflexivity.
  hcrack; repeat split; try reflexivity.
  do 2 eexists. repeat split; eassumption.
Qed.

(** X16.  [_refresh_airflow_jwt] asks the provider first.  If
    [get_token] raises or hangs, so does it, and nothing is sent.
    Otherwise it sends one POST to [<host>/auth/token] carrying the
    identity token as bearer and the username and password as JSON; on
    success the JWT kept is the [access_token] field of the answer, on
    failure the JWT is unchanged. *)
Theorem _refresh_airflow_jwt_outcome henv c :
  let R := _refresh_airflow_jwt henv c in
  match get_token (auth_env henv) (token_provider c) with
  | Returned t s =>
      sent (res_state R) = sent c ++ [jwt_request c t (calls s)]
      /\ token_provider (res_state R) = s
      /\ match R with
         | Ok _ c' =>
             exists r d,
             httpx_reply henv (length (sent c)) (jwt_request c t (calls s))
               = Responded r
             /\ status_error r = None
             /\ body r = Some (VDict d)
             /\ PyVal.lookup "access_token" d = Some (_airflow_jwt_token c')
         | Err _ c' => _airflow_jwt_token c' = _airflow_jwt_token c
         | Stuck _ => False
         end
  | Raised e s => R = Err e (set_provider s c)
  | Blocked s => R = Stuck (set_provider s c)
  end.
Proof. exact (_refresh_airflow_jwt_cases henv c). Qed.

(** What [_request] does when the client has a JWT. *)
Lemma _request_with_jwt henv method path js c :
  PyVal.truthy (_airflow_jwt_token c) = true ->
  let R := _request henv method path js c in
  match get_token (auth_env henv) (token_provider c) with
  | Returned t s =>
      sent (res_state R)
      = sent c ++ [api_request henv c method path js t (calls s)]
      /\ token_provider (res_state R) = s
      /\ _airflow_jwt_token (res_state R) = _airflow_jwt_token c
      /\ (forall v c', R = Ok v c' ->
          exists r,
            httpx_reply henv (length (sent c))
              (api_request henv c method path js t (calls s)) = Responded r
            /\ status_error r = None /\ body r = Some v)
  | Raised e s => R = Err e (set_provider s c)
  | Blocked s => R = Stuck (set_provider s c)
  end.
Proof.
  intros Hj. destruct c as [host p user pw jwt snt lg]. cbn in Hj.
  unfold api_request. hrun. rewrite Hj. hrun.
  destruct (get_token (auth_env henv) p) as [t s|e s|s]; hrun;
    try reflexivity.
  hcrack; repeat split; try reflexivity; intros v0 c0 H0;
    try discriminate H0.
  injection H0 as <- <-. eexists. repeat split; eassumption.
Qed.

(** X17.  With a JWT in hand, [_request] asks the provider for the
    identity token before anything is sent: if [get_token] raises or
    hangs, so does [_request] and no request leaves; otherwise exactly one
    request is sent, to [<host><path>], with the JWT in [Authorization]
    and the identity token in [Proxy-Authorization], and a value returned
    is the JSON body of a successful answer to it. *)
Theorem _request_needs_identity_token henv method path js c :
  PyVal.truthy (_airflow_jwt_token c) = true ->
  let R := _request henv method path js c in
  match get_token (auth_env henv) (token_provider c) with
  | Returned t s =>
      sent (res_state R)
      = sent c ++ [api_request henv c method path js t (calls s)]
      /\ token_provider (res_state R) = s
      /\ _airflow_jwt_token (res_state R) = _airflow_jwt_token c
      /\ (forall v c', R = Ok v c' ->
          exists r,
            httpx_reply henv (length (sent c))
              (api_request henv c method path js t (calls s)) = Responded r
            /\ status_error r = None /\ body r = Some v)
  | Raised e s => R = Err e (set_provider s c)
  | Blocked s => R = Stuck (set_provider s c)
  end.
Proof. exact (_request_with_jwt henv method path js c). Qed.

Lemma _request_needs_identity_token_witness :
  let c := SampleHttp.client Sample.fresh in
  let R := _request SampleHttp.henv "GET" "/api/v2/dags" None c in
  match get_token (auth_env SampleHttp.henv) (token_provider c) with
  | Returned t s =>
      sent (res_state R)
      = sent c
        ++ [api_request SampleHttp.henv c "GET" "/api/v2/dags" None t
              (calls s)]
      /\ token_provider (res_state R) = s
      /\ _airflow_jwt_token (res_state R) = _airflow_jwt_token c
      /\ (forall v c', R = Ok v c' ->
          exists r,
            httpx_reply SampleHttp.henv (length (sent c))
              (api_request SampleHttp.henv c "GET" "/api/v2/dags" None t
                 (calls s)) = Responded r
            /\ status_error r = None /\ body r = Some v)
  | Raised e s => R = Err e (set_provider s c)
  | Blocked s => R = Stuck (set_provider s c)
  end.
Proof.
  apply (_request_needs_identity_token SampleHttp.henv "GET" "/api/v2/dags"
           None (SampleHttp.client Sample.fresh)).
  reflexivity.
Defined.

(** ** The host the constructor keeps *)

Lemma _refresh_airflow_jwt_frame henv c :
  let c' := res_state (_refresh_airflow_jwt henv c) in
  airflow_host c' = airflow_host c
  /\ airflow_username c' = airflow_username c
  /\ airflow_password c' = airflow_password c.
Proof.
  destruct c as [host p user pw jwt snt lg]. hrun. hcrack; repeat split.
Qed.

(** X15.  The constructor drops every trailing slash of the host and
    nothing else: hosts that differ only in trailing slashes give the
    same client, and however the construction ends, the host the client
    holds has no trailing slash, is the given one up to trailing slashes,
    and is the given one when that has no trailing slash. *)
Theorem airflow_host_trailing_slashes henv h n provider user password :
  let built := res_state (client_init henv h provider user password) in
  client_init henv (h ++ slashes n) provider user password
  = client_init henv h provider user password
  /\ PyVal.ends_with_slash (airflow_host built) = false
  /\ (exists k, h = (airflow_host built ++ slashes k)%string)
  /\ (PyVal.ends_with_slash h = false -> airflow_host built = h).
Proof.
  cbv zeta.
  assert (Hhost : airflow_host
                    (res_state (client_init henv h provider user password))
                  = PyVal.rstrip_slash h).
  { unfold client_init.
    exact (proj1 (_refresh_airflow_jwt_frame henv _)). }
  rewrite Hhost. repeat split.
  - unfold client_init. now rewrite rstrip_slash_app_slashes.
  - apply rstrip_slash_no_trailing.
  - apply rstrip_slash_decompose.
  - apply rstrip_slash_fixed.
Qed.

(** ** What a request leaves in place *)

(** The provider's lock after a call of [get_token]: released when the
    call came back, held when it did not. *)
Lemma get_token_lock_after env s :
  _lock s = false ->
  match get_token env s with
  | Returned _ s' | Raised _ s' => _lock s' = false
  | Blocked s' => _lock s' = true
  end.
Proof.
  intros Hl. destruct s as [a b cid sec cr te l th st f now tr lg].
  cbn in Hl. subst. run. crack; reflexivity.
Qed.

Ltac lock_facts :=
  repeat match goal with
         | Hl : _lock ?p = false, H : get_token ?e ?p = _ |- _ =>
             let X := fresh "X" in
             pose proof (get_token_lock_after e p Hl) as X;
             rewrite H in X; cbn in X; clear H;
             lazymatch type of X with
             | _ /\ _ => destruct X as [_ X]
             | _ => idtac
             end
         end.

Lemma _request_frame henv method path js c :
  let R := _request henv method path js c in
  airflow_host (res_state R) = airflow_host c
  /\ (PyVal.truthy (_airflow_jwt_token c) = true ->
      _airflow_jwt_token (res_state R) = _airflow_jwt_token c)
  /\ (_lock (token_provider c) = false ->
      match R with
      | Ok _ c' | Err _ c' => _lock (token_provider c') = false
      | Stuck c' => _lock (token_provider c') = true
      end)
  /\ exists new,
      sent (res_state R) = sent c ++ new
      /\ Forall (fun call => h_method call = method
                             \/ is_jwt_request (airflow_host c) call) new.
Proof.
  destruct c as [host p user pw jwt snt lg]. cbv zeta.
  split; [|split; [|split]].
  - hrun. hcrack; reflexivity.
  - intros Hj. cbn in Hj. hrun. rewrite Hj. hrun. hcrack; reflexivity.
  - intros Hl. cbn in Hl. hrun. hcrack; lock_facts; assumption.
  - unfold is_jwt_request. hrun. hcrack.
    all: rewrite <- ?app_assoc.
    all: first [ exists []; split; [symmetry; apply app_nil_r | constructor]
               | eexists; split; [reflexivity|];
                 repeat (constructor; [cbn; tauto|]); constructor ].
Qed.

Lemma _request_client_frame henv method path js c :
  client_frame method c (res_state (_request henv method path js c))
    (is_stuck (_request henv method path js c)).
Proof.
  destruct (_request_frame henv method path js c) as [H1 [H2 [H3 H4]]].
  repeat split; trivial.
  intros Hl. specialize (H3 Hl).
  destruct (_request henv method path js c); exact H3.
Qed.


Lemma _request_stuck_in_margin henv method path js c cr e :
  _lock (token_provider c) = false ->
  _credentials (token_provider c) = Some cr ->
  _token_expiry (token_provider c) = Some e ->
  utcnow (token_provider c) >= e - 300 ->
  exists c',
    _request henv method path js c = Stuck c'
    /\ sent c' = sent c
    /\ _lock (token_provider c') = true.
Proof.
  intros Hl Hc He Hn.
  destruct (get_token_blocks_in_margin (auth_env henv) (token_provider c)
              cr e Hl Hc He Hn) as [s' [Hg [_ [Hl' _]]]].
  destruct c as [host p user pw jwt snt lg]. cbn in *.
  hrun. destruct (PyVal.truthy jwt); hrun; rewrite Hg; hrun;
    eexists; repeat split; assumption.
Qed.

(** * Properties of the MCP server ([server.py]) *)

Ltac srun :=
  cbv beta iota zeta delta
    [call_tool client_attr on_client arg_get arg_item subscript
     server_logger
     get_health get_version list_dags get_dag pause_dag
     unpause_dag list_dag_runs get_dag_run trigger_dag get_task_instance
     get_task_logs list_variables get_variable set_variable delete_variable
     list_connections get_connection list_pools get_pool list_import_errors
     get_import_error
     pret pbind praise ptry pgets pmodify pwhen res_state
     set_airflow_client set_world set_server_log
     airflow_client world server_log].

Ltac scrack :=
  repeat match goal with
         | |- context [match ?x with _ => _ end] =>
             lazymatch x with
             | context [match _ with _ => _ end] => fail
             | context [_request] => fail
             | _ => destruct x eqn:?; srun
             end
         end.

Lemma dispatch_frame henv name arguments sv :
  let R := call_tool_dispatch henv name arguments sv in
  server_log (res_state R) = server_log sv
  /\ world (res_state R) = world sv
  /\ match airflow_client sv with
     | None => exists e, R = Err e sv
     | Some c =>
         exists c',
         airflow_client (res_state R) = Some c'
         /\ client_frame (http_method_of name) c c' (is_stuck R)
     end.
Proof.
  assert (Hrefl : forall m c, client_frame m c c false).
  { intros m c. repeat split; trivial. exists []. split; [now rewrite app_nil_r | constructor]. }
  destruct sv as [[c|] w lg]; cbv zeta; unfold call_tool_dispatch.
  - repeat match goal with
           | |- context [if String.eqb name ?k then _ else _] =>
               let E := fresh "E" in
               destruct (String.eqb name k) eqn:E;
               [apply String.eqb_eq in E; subst name|]
           end.
    all: try match goal with
             | |- context [http_method_of ?n] =>
                 let m := eval vm_compute in (http_method_of n) in
                 change (http_method_of n) with m
             end.
    all: srun; scrack.
    all: try match goal with
             | |- context [_request ?h ?m ?p ?j ?c] =>
                 pose proof (_request_client_frame h m p j c) as F;
                 destruct (_request h m p j c)
             end.
    all: cbn in *; repeat split; try (eexists; split; [reflexivity|]); eauto.
  - repeat match goal with
           | |- context [if String.eqb name ?k then _ else _] =>
               let E := fresh "E" in
               destruct (String.eqb name k) eqn:E
           end.
    all: srun; repeat split; eexists; reflexivity.
Qed.

(** X18.  [call_tool] never raises: every exception of the dispatch is
    turned into one text item.  Every answer is exactly one item of type
    [text].  Before [initialize_client] every call is answered by an
    error text; afterwards the client stays in place with its host, a JWT
    that is set stays set, and the provider's lock is held afterwards
    exactly when the call did not come back. *)
Theorem call_tool_always_answers henv name arguments sv :
  let R := call_tool henv name arguments sv in
  (forall e sv', R <> Err e sv')
  /\ (forall l sv', R = Ok l sv' -> exists txt, l = [mkTextContent "text" txt])
  /\ world (res_state R) = world sv
  /\ match airflow_client sv with
     | None =>
         exists e,
         R = Ok [mkTextContent "text" ("Error: " ++ exn_str e)]
               (set_server_log
                  (server_log sv
                   ++ [mkLog INFO
                         "Calling tool: {name} with arguments: {arguments}";
                       mkLog ERROR "Error calling tool {name}: {e}"]) sv)
     | Some c =>
         exists c',
         airflow_client (res_state R) = Some c'
         /\ airflow_host c' = airflow_host c
         /\ (PyVal.truthy (_airflow_jwt_token c) = true ->
             _airflow_jwt_token c' = _airflow_jwt_token c)
         /\ (_lock (token_provider c) = false ->
             _lock (token_provider c') = is_stuck R)
     end.
Proof.
  cbv zeta.
  pose proof (dispatch_frame henv name arguments
                (set_server_log
                   (server_log sv
                    ++ [mkLog INFO
                          "Calling tool: {name} with arguments: {arguments}"])
                   sv)) as F.
  cbv zeta in F. destruct F as [Flog [Fw Fc]].
  unfold call_tool, ptry, pbind, server_logger, pmodify, pret.
  destruct sv as [[c|] w lg]; cbn in *.
  - destruct Fc as [c' [Hc' [Hh [Hj [Hl _]]]]].
    destruct (call_tool_dispatch henv name arguments _) as [v sv1|e sv1|sv1];
      cbn in *; repeat split; try discriminate; trivial;
      try (intros l sv' [= <- <-]; eexists; reflexivity);
      try (exists c'; destruct sv1; cbn in *; repeat split; assumption).
  - destruct Fc as [e He]. rewrite He. cbn.
    repeat split; try discriminate.
    + intros l sv' [= <- <-]. eexists. reflexivity.
    + exists e. now rewrite <- app_assoc.
Qed.

Lemma lookup_snoc k' k v d :
  PyVal.lookup k' (d ++ [(k, v)])
  = match PyVal.lookup k' d with
    | Some x => Some x
    | None => if String.eqb k' k then Some v else None
    end.
Proof.
  induction d as [|[k0 v0] d IH]; cbn.
  - reflexivity.
  - destruct (String.eqb k' k0); [reflexivity | exact IH].
Qed.

(** X19.  A name that [list_tools] does not advertise is answered by
    the text [Error: Unknown tool: <name>], whatever the arguments; the
    client is not touched and nothing is sent. *)
Theorem unknown_tool_is_refused henv name arguments sv :
  ~ In name (map t_name list_tools) ->
  call_tool henv name arguments sv
  = Ok [mkTextContent "text" ("Error: Unknown tool: " ++ name)]
      (set_server_log
         (server_log sv
          ++ [mkLog INFO "Calling tool: {name} with arguments: {arguments}";
              mkLog ERROR "Error calling tool {name}: {e}"]) sv).
Proof.
  intros Hn. cbn in Hn.
  unfold call_tool, call_tool_dispatch.
  repeat match goal with
         | |- context [if String.eqb name ?k then _ else _] =>
             let E := fresh "E" in
             destruct (String.eqb name k) eqn:E;
             [apply String.eqb_eq in E; exfalso; apply Hn; rewrite E;
              repeat (first [left; reflexivity | right])|]
         end.
  destruct sv as [ac w lg]. srun. cbn. now rewrite <- app_assoc.
Qed.

Lemma unknown_tool_is_refused_witness :
  call_tool SampleHttp.henv "airflow_delete_dag" (VDict [])
    (SampleHttp.server Sample.fresh)
  = Ok [mkTextContent "text" "Error: Unknown tool: airflow_delete_dag"]
      (set_server_log
         (server_log (SampleHttp.server Sample.fresh)
          ++ [mkLog INFO "Calling tool: {name} with arguments: {arguments}";
              mkLog ERROR "Error calling tool {name}: {e}"])
         (SampleHttp.server Sample.fresh)).
Proof.
  apply (unknown_tool_is_refused SampleHttp.henv "airflow_delete_dag"
           (VDict []) (SampleHttp.server Sample.fresh)).
  intros H. cbn in H.
  repeat (destruct H as [H | H]; [discriminate H|]). exact H.
Defined.

Ltac each_tool H :=
  unfold list_tools in H; cbn [In] in H;
  repeat (destruct H as [H | H]; [subst|]); [..|contradiction].

Ltac known_keys Hreq :=
  repeat match goal with
         | |- context [PyVal.lookup ?k ?d] =>
             let E := fresh "E" in
             destruct (PyVal.lookup k d) eqn:E;
             [|try (exfalso; apply (Hreq k); [cbn; tauto | exact E])]
         end.

(** X20.  Every advertised tool is served: called with its required
    arguments, on a client that has a JWT and whose provider hands out a
    token, a tool sends exactly one request, with the HTTP method of the
    client method it is routed to, to a path under [/api/v2/], carrying
    both tokens. *)
Theorem advertised_tool_sends_one_request henv t d sv c tok s :
  In t list_tools ->
  (forall k, In k (t_required t) -> PyVal.lookup k d <> None) ->
  airflow_client sv = Some c ->
  PyVal.truthy (_airflow_jwt_token c) = true ->
  get_token (auth_env henv) (token_provider c) = Returned tok s ->
  exists path js c',
    airflow_client (res_state (call_tool henv (t_name t) (VDict d) sv))
    = Some c'
    /\ sent c'
       = sent c ++ [api_request henv c (http_method_of (t_name t)) path js
                      tok (calls s)]
    /\ String.prefix "/api/v2/" path = true.
Proof.
  intros Ht Hreq Hc Hj Hg. destruct sv as [ac w lg]. cbn in Hc. subst ac.
  each_tool Ht; cbn [t_name t_required] in *.
  all: match goal with
       | |- context [http_method_of ?n] =>
           let m := eval vm_compute in (http_method_of n) in
           change (http_method_of n) with m
       end.
  all: unfold call_tool, call_tool_dispatch; cbn [String.eqb Ascii.eqb Bool.eqb].
  all: srun; known_keys Hreq; srun.
  all: match goal with
       | |- context [_request ?h ?m ?p ?j ?c] =>
           pose proof (_request_with_jwt h m p j c Hj) as F;
           cbv zeta in F; rewrite Hg in F; destruct F as [F _];
           destruct (_request h m p j c)
       end.
  all: cbn in F |- *; do 3 eexists; (split; [reflexivity|]);
    (split; [exact F | reflexivity]).
Qed.

Lemma advertised_tool_sends_one_request_witness :
  let sv := SampleHttp.server Sample.fresh in
  let c := SampleHttp.client Sample.fresh in
  exists path js c',
    airflow_client
      (res_state (call_tool SampleHttp.henv (t_name SampleHttp.get_dag_tool)
                    (VDict [("dag_id", VStr "etl")]) sv))
    = Some c'
    /\ sent c'
       = sent c
         ++ [api_request SampleHttp.henv c
               (http_method_of (t_name SampleHttp.get_dag_tool)) path js
               "eyJ.id.token"
               (calls (final (get_token Sample.fair Sample.fresh)))]
    /\ String.prefix "/api/v2/" path = true.
Proof.
  apply (advertised_tool_sends_one_request SampleHttp.henv
           SampleHttp.get_dag_tool [("dag_id", VStr "etl")]
           (SampleHttp.server Sample.fresh) (SampleHttp.client Sample.fresh)
           "eyJ.id.token" (final (get_token Sample.fair Sample.fresh))).
  - right. left. reflexivity.
  - intros k [<- | []]. discriminate.
  - reflexivity.
  - reflexivity.
  - reflexivity.
Defined.

(** X21.  A call of an advertised tool that lacks a required argument
    is answered by the text of the [KeyError] for a missing required key;
    no token is asked for and nothing is sent. *)
Theorem missing_required_argument_is_refused henv t d sv c k :
  In t list_tools ->
  In k (t_required t) ->
  PyVal.lookup k d = None ->
  airflow_client sv = Some c ->
  exists k',
    In k' (t_required t)
    /\ PyVal.lookup k' d = None
    /\ call_tool henv (t_name t) (VDict d) sv
       = Ok [mkTextContent "text" ("Error: '" ++ k' ++ "'")]
           (set_server_log
              (server_log sv
               ++ [mkLog INFO
                     "Calling tool: {name} with arguments: {arguments}";
                   mkLog ERROR "Error calling tool {name}: {e}"]) sv).
Proof.
  intros Ht Hk Hnone Hc. destruct sv as [ac w lg]. cbn in Hc. subst ac.
  each_tool Ht; cbn [t_name t_required In] in *.
  all: try contradiction.
  all: unfold call_tool, call_tool_dispatch; cbn [String.eqb Ascii.eqb Bool.eqb].
  all: srun.
  all: repeat match goal with
              | |- context [match PyVal.lookup ?k' ?d' with _ => _ end] =>
                  let E := fresh "E" in
                  destruct (PyVal.lookup k' d') eqn:E;
                  [srun | exists k'; split; [tauto|]; split; [exact E|];
                          cbn; now rewrite <- app_assoc]
              end.
  all: exfalso; repeat (destruct Hk as [<- | Hk]; [congruence|]);
    contradiction.
Qed.

Lemma missing_required_argument_is_refused_witness :
  let sv := SampleHttp.server Sample.fresh in
  exists k',
    In k' (t_required SampleHttp.get_dag_tool)
    /\ PyVal.lookup k' [] = None
    /\ call_tool SampleHttp.henv (t_name SampleHttp.get_dag_tool) (VDict []) sv
       = Ok [mkTextContent "text" ("Error: '" ++ k' ++ "'")]
           (set_server_log
              (server_log sv
               ++ [mkLog INFO
                     "Calling tool: {name} with arguments: {arguments}";
                   mkLog ERROR "Error calling tool {name}: {e}"]) sv).
Proof.
  apply (missing_required_argument_is_refused SampleHttp.henv
           SampleHttp.get_dag_tool [] (SampleHttp.server Sample.fresh)
           (SampleHttp.client Sample.fresh) "dag_id").
  - right. left. reflexivity.
  - left. reflexivity.
  - reflexivity.
  - reflexivity.
Defined.

(** X22.  The defaults advertised in the tools' schemas are the
    defaults the dispatch uses: passing an argument explicitly with the
    default value of its schema gives the same run as leaving it out. *)
Theorem schema_defaults_are_the_defaults_used henv t k sch v d sv :
  In t list_tools ->
  In (k, sch) (t_properties t) ->
  s_default sch = Some v ->
  PyVal.lookup k d = None ->
  call_tool henv (t_name t) (VDict (d ++ [(k, v)])) sv
  = call_tool henv (t_name t) (VDict d) sv.
Proof.
  intros Ht Hp Hd Hnone.
  each_tool Ht; cbn [t_name t_properties paging In] in *.
  all: try contradiction.
  all: repeat (destruct Hp as [Hp | Hp];
               [injection Hp as <- <-; cbn in Hd;
                first [discriminate Hd | injection Hd as <-]|]);
    try contradiction.
  all: unfold call_tool, call_tool_dispatch; cbn [String.eqb Ascii.eqb Bool.eqb].
  all: unfold arg_get, arg_item, subscript.
  all: rewrite !lookup_snoc; cbn [String.eqb Ascii.eqb Bool.eqb];
    rewrite ?Hnone.
  all: repeat match goal with
              | |- context [PyVal.lookup ?k' ?d'] =>
                  destruct (PyVal.lookup k' d')
              end; reflexivity.
Qed.

Lemma schema_defaults_are_the_defaults_used_witness :
  call_tool SampleHttp.henv (t_name SampleHttp.list_dags_tool)
    (VDict ([("offset", VInt 20)] ++ [("limit", VInt 100)]))
    (SampleHttp.server Sample.fresh)
  = call_tool SampleHttp.henv (t_name SampleHttp.list_dags_tool)
      (VDict [("offset", VInt 20)]) (SampleHttp.server Sample.fresh).
Proof.
  apply (schema_defaults_are_the_defaults_used SampleHttp.henv
           SampleHttp.list_dags_tool "limit" (number 100) (VInt 100)
           [("offset", VInt 20)] (SampleHttp.server Sample.fresh)).
  - left. reflexivity.
  - left. reflexivity.
  - reflexivity.
  - reflexivity.
Defined.

(** X23.  A tool call sends nothing but requests with the HTTP method
    of its tool, and the JWT request to [/auth/token].  Every tool other
    than pause, unpause, trigger, set-variable and delete-variable is
    read-only: besides the JWT request it sends only GET. *)
Theorem call_tool_keeps_to_its_http_method henv name arguments sv c :
  airflow_client sv = Some c ->
  exists c' new,
    airflow_client (res_state (call_tool henv name arguments sv)) = Some c'
    /\ sent c' = sent c ++ new
    /\ Forall (fun call => h_method call = http_method_of name
                           \/ is_jwt_request (airflow_host c) call) new
    /\ (~ In name ["airflow_pause_dag"; "airflow_unpause_dag";
                   "airflow_trigger_dag"; "airflow_set_variable";
                   "airflow_delete_variable"] ->
        http_method_of name = "GET"%string).
Proof.
  intros Hc.
  pose proof (dispatch_frame henv name arguments
                (set_server_log
                   (server_log sv
                    ++ [mkLog INFO
                          "Calling tool: {name} with arguments: {arguments}"])
                   sv)) as F.
  cbv zeta in F. destruct F as [_ [_ Fc]].
  destruct sv as [ac w lg]. cbn in Hc. subst ac. cbn in Fc.
  destruct Fc as [c' [Hc' [_ [_ [_ [new [Hs Hall]]]]]]].
  exists c', new. split; [|split; [exact Hs|split; [exact Hall|]]].
  - unfold call_tool, ptry, pbind, server_logger, pmodify, pret. cbn.
    destruct (call_tool_dispatch henv name arguments _) as [v sv1|e sv1|sv1];
      cbn in *; destruct sv1; cbn in *; exact Hc'.
  - intros Hn. unfold http_method_of. cbn in Hn |- *.
    destruct (String.eqb name "airflow_pause_dag") eqn:E1;
      [apply String.eqb_eq in E1; subst name; exfalso; apply Hn;
       repeat (first [left; reflexivity | right])|].
    destruct (String.eqb name "airflow_unpause_dag") eqn:E2;
      [apply String.eqb_eq in E2; subst name; exfalso; apply Hn;
       repeat (first [left; reflexivity | right])|].
    destruct (String.eqb name "airflow_trigger_dag") eqn:E3;
      [apply String.eqb_eq in E3; subst name; exfalso; apply Hn;
       repeat (first [left; reflexivity | right])|].
    destruct (String.eqb name "airflow_set_variable") eqn:E4;
      [apply String.eqb_eq in E4; subst name; exfalso; apply Hn;
       repeat (first [left; reflexivity | right])|].
    destruct (String.eqb name "airflow_delete_variable") eqn:E5;
      [apply String.eqb_eq in E5; subst name; exfalso; apply Hn;
       repeat (first [left; reflexivity | right])|].
    reflexivity.
Qed.

Lemma call_tool_keeps_to_its_http_method_witness :
  let sv := SampleHttp.server Sample.fresh in
  let c := SampleHttp.client Sample.fresh in
  exists c' new,
    airflow_client
      (res_state (call_tool SampleHttp.henv "airflow_list_dags" (VDict []) sv))
    = Some c'
    /\ sent c' = sent c ++ new
    /\ Forall (fun call => h_method call = http_method_of "airflow_list_dags"
                           \/ is_jwt_request (airflow_host c) call) new
    /\ (~ In "airflow_list_dags"
            ["airflow_pause_dag"; "airflow_unpause_dag";
             "airflow_trigger_dag"; "airflow_set_variable";
             "airflow_delete_variable"] ->
        http_method_of "airflow_list_dags" = "GET"%string).
Proof.
  apply (call_tool_keeps_to_its_http_method SampleHttp.henv
           "airflow_list_dags" (VDict []) (SampleHttp.server Sample.fresh)
           (SampleHttp.client Sample.fresh)).
  reflexivity.
Defined.

(** X24.  The provider's deadlock reaches the MCP layer: when the
    credential is inside the 5-minute margin, a call of any advertised
    tool with its required arguments never answers; no request is sent
    and the provider's lock stays held. *)
Theorem call_tool_hangs_in_margin henv t d sv c cr e :
  In t list_tools ->
  (forall k, In k (t_required t) -> PyVal.lookup k d <> None) ->
  airflow_client sv = Some c ->
  _lock (token_provider c) = false ->
  _credentials (token_provider c) = Some cr ->
  _token_expiry (token_provider c) = Some e ->
  utcnow (token_provider c) >= e - 300 ->
  exists sv' c',
    call_tool henv (t_name t) (VDict d) sv = Stuck sv'
    /\ airflow_client sv' = Some c'
    /\ sent c' = sent c
    /\ _lock (token_provider c') = true.
Proof.
  intros Ht Hreq Hc Hl Hcr He Hn. destruct sv as [ac w lg]. cbn in Hc.
  subst ac.
  each_tool Ht; cbn [t_name t_required] in *.
  all: unfold call_tool, call_tool_dispatch; cbn [String.eqb Ascii.eqb Bool.eqb].
  all: srun; known_keys Hreq; srun.
  all: match goal with
       | |- context [_request ?h ?m ?p ?j ?c] =>
           destruct (_request_stuck_in_margin h m p j c cr e Hl Hcr He Hn)
             as [c' [-> [Hs Hl']]]
       end.
  all: do 2 eexists; split; [reflexivity|]; repeat split; assumption.
Qed.

Lemma call_tool_hangs_in_margin_witness :
  let sv := SampleHttp.server Sample.near_expiry in
  let c := SampleHttp.client Sample.near_expiry in
  exists sv' c',
    call_tool SampleHttp.henv (t_name SampleHttp.get_dag_tool)
      (VDict [("dag_id", VStr "etl")]) sv = Stuck sv'
    /\ airflow_client sv' = Some c'
    /\ sent c' = sent c
    /\ _lock (token_provider c') = true.
Proof.
  apply (call_tool_hangs_in_margin SampleHttp.henv SampleHttp.get_dag_tool
           [("dag_id", VStr "etl")] (SampleHttp.server Sample.near_expiry)
           (SampleHttp.client Sample.near_expiry)
           (Sample.creds (Some "ya29.access") (Some 1000)) 1000).
  - right. left. reflexivity.
  - intros k [<- | []]. discriminate.
  - reflexivity.
  - reflexivity.
  - reflexivity.
  - reflexivity.
  - cbn. lia.
Defined.

(** X25.  [initialize_client] refuses to start without [AIRFLOW_HOST],
    then without [IAP_CLIENT_ID], with a [ValueError] and nothing done.
    When it returns, the server holds a client for the host without its
    trailing slashes, with empty username and password, whose provider is
    between calls, and whose JWT is the [access_token] of the answer to
    the one request sent so far. *)
Theorem initialize_client_outcome henv host iap gid gsec sv :
  (PyStr.truthy host = false ->
   initialize_client henv host iap gid gsec sv
   = Err (ValueError "AIRFLOW_HOST environment variable is required") sv)
  /\ (PyStr.truthy host = true ->
      PyStr.truthy iap = false ->
      initialize_client henv host iap gid gsec sv
      = Err (ValueError "IAP_CLIENT_ID environment variable is required") sv)
  /\ (forall sv',
        initialize_client henv host iap gid gsec sv = Ok tt sv' ->
        exists h c t r d,
          host = Some h
          /\ airflow_client sv' = Some c
          /\ airflow_host c = PyVal.rstrip_slash h
          /\ airflow_username c = EmptyString
          /\ airflow_password c = EmptyString
          /\ _lock (token_provider c) = false
          /\ sent c = [jwt_request c t (calls (token_provider c))]
          /\ httpx_reply henv 0 (jwt_request c t (calls (token_provider c)))
             = Responded r
          /\ status_error r = None
          /\ body r = Some (VDict d)
          /\ PyVal.lookup "access_token" d = Some (_airflow_jwt_token c)).
Proof.
  split; [|split].
  - intros Hh. destruct host as [[|a h]|]; try discriminate Hh;
      destruct iap as [[|b i]|]; reflexivity.
  - intros Hh Hi. destruct host as [[|a h]|]; try discriminate Hh;
      destruct iap as [[|b i]|]; try discriminate Hi; reflexivity.
  - intros sv' Hrun.
    destruct host as [[|a h]|]; try discriminate Hrun;
      destruct iap as [[|b i]|]; try discriminate Hrun.
    destruct sv as [ac w lg]. unfold initialize_client in Hrun.
    cbv beta iota zeta delta
      [pbind pmodify pgets pret praise server_logger set_server_log
       set_world set_airflow_client world airflow_client server_log]
      in Hrun.
    destruct (__init__ (auth_env henv) (String b i) 3000 gid gsec w)
      as [[] s0|e s0|s0] eqn:Hinit; try discriminate Hrun.
    destruct (constructed_provider _ _ _ _ _ _ _ Hinit) as [Hl0 _].
    set (c0 := mkClient (PyVal.rstrip_slash (String a h)) s0
                 EmptyString EmptyString VNone [] []) in *.
    pose proof (_refresh_airflow_jwt_cases henv c0) as F. cbv zeta in F.
    pose proof (get_token_lock_after (auth_env henv) s0 Hl0) as L.
    unfold client_init in Hrun. fold c0 in Hrun.
    destruct (_refresh_airflow_jwt henv c0) as [[] c|e c|c] eqn:Hjwt;
      try discriminate Hrun.
    cbv beta iota zeta delta
      [pbind pmodify pgets pret praise server_logger set_server_log
       set_world set_airflow_client world airflow_client server_log]
      in Hrun.
    injection Hrun as <-.
    change (token_provider c0) with s0 in F.
    destruct (get_token (auth_env henv) s0) as [t s|e s|s];
      try discriminate F.
    destruct F as [Hsent [Hprov [r [d [Hrep [Hst [Hb Hlk]]]]]]].
    cbn in Hsent, Hprov.
    assert (Hframe : airflow_host c = airflow_host c0
                     /\ airflow_username c = airflow_username c0
                     /\ airflow_password c = airflow_password c0).
    { pose proof (_refresh_airflow_jwt_frame henv c0) as Fr.
      rewrite Hjwt in Fr. exact Fr. }
    destruct Hframe as [Hh [Hu Hp]].
    exists (String a h), c, t, r, d. cbn [airflow_client].
    assert (Hcall : jwt_request c t (calls (token_provider c))
                    = jwt_request c0 t (calls s)).
    { unfold jwt_request. now rewrite Hh, Hu, Hp, Hprov. }
    rewrite Hcall. repeat split; trivial.
    now rewrite Hprov.
Qed.

(** * Properties of the library-based client ([airflow_tools.py]) *)

Ltac trun :=
  cbv beta iota zeta delta
    [Tools._refresh_airflow_jwt Tools._set_auth_header Tools._api_call
     Tools.invoke Tools.set_default_header Tools.provider_get_token
     Tools.httpx_post Tools.raise_for_status Tools.response_json
     Tools.dict_get_or_none Tools.logger Tools.or_empty
     pret pbind praise ptry pgets pmodify pwhen res_state
     Tools.set_provider Tools.set_jwt Tools.set_default_headers
     Tools.set_sent Tools.set_invoked Tools.set_client_log
     Tools.airflow_host Tools.token_provider Tools.api_version
     Tools.airflow_username Tools.airflow_password Tools._airflow_jwt_token
     Tools.default_headers Tools.sent Tools.invoked Tools.client_log negb].

Ltac tcrack :=
  repeat match goal with
         | |- context [match ?x with _ => _ end] =>
             lazymatch x with
             | context [match _ with _ => _ end] => fail
             | _ => destruct x eqn:?; trun
             end
         end.

Lemma dict_find_set_same k v d :
  Tools.dict_find k (Tools.dict_set k v d) = Some v.
Proof.
  induction d as [|[k' v'] d IH]; cbn.
  - now rewrite String.eqb_refl.
  - destruct (String.eqb k k') eqn:E; cbn; rewrite ?E, ?String.eqb_refl;
      [reflexivity | exact IH].
Qed.

Lemma dict_find_set_other k k' v d :
  String.eqb k k' = false ->
  Tools.dict_find k (Tools.dict_set k' v d) = Tools.dict_find k d.
Proof.
  intros Hne. induction d as [|[k0 v0] d IH]; cbn.
  - now rewrite Hne.
  - destruct (String.eqb k' k0) eqn:E; cbn.
    + apply String.eqb_eq in E. subst k0. now rewrite Hne.
    + now rewrite IH.
Qed.

Lemma prefix_app (a b : string) : String.prefix a (a ++ b) = true.
Proof.
  induction a as [|ch a IH]; cbn.
  - now destruct b.
  - destruct (ascii_dec ch ch); [exact IH | congruence].
Qed.

(** X26.  [AirflowIAPClient._refresh_airflow_jwt] either obtains a
    non-empty JWT, the [access_token] field of a successful answer to its
    one POST to [<host>/auth/token], or raises [RuntimeError] with a
    message that starts with [Airflow authentication failed: ]; it hangs
    only if [get_token] does, and then nothing has been sent. *)
Theorem tools_refresh_jwt_succeeds_or_RuntimeError henv c :
  match Tools._refresh_airflow_jwt henv c with
  | Ok _ c' =>
      PyVal.truthy (Tools._airflow_jwt_token c') = true
      /\ exists t s r d,
          get_token (auth_env henv) (Tools.token_provider c) = Returned t s
          /\ Tools.token_provider c' = s
          /\ Tools.sent c'
             = Tools.sent c
               ++ [mkCall "POST" (Tools.airflow_host c ++ "/auth/token")
                     [("Authorization", ("Bearer " ++ t)%string)]
                     (Some (VDict
                              [("username",
                                VStr (Tools.or_empty (Tools.airflow_username c)));
                               ("password",
                                VStr (Tools.or_empty (Tools.airflow_password c)))]))
                     (calls s)]
          /\ httpx_reply henv (length (Tools.sent c))
               (mkCall "POST" (Tools.airflow_host c ++ "/auth/token")
                  [("Authorization", ("Bearer " ++ t)%string)]
                  (Some (VDict
                           [("username",
                             VStr (Tools.or_empty (Tools.airflow_username c)));
                            ("password",
                             VStr (Tools.or_empty (Tools.airflow_password c)))]))
                  (calls s))
             = Responded r
          /\ status_error r = None
          /\ body r = Some (VDict d)
          /\ PyVal.lookup "access_token" d = Some (Tools._airflow_jwt_token c')
  | Err e c' =>
      exn_class e = "RuntimeError"%string
      /\ String.prefix "Airflow authentication failed: " (exn_str e) = true
  | Stuck c' =>
      exists s, get_token (auth_env henv) (Tools.token_provider c) = Blocked s
                /\ Tools.sent c' = Tools.sent c
  end.
Proof.
  destruct c as [host p ver user pw jwt hdrs snt inv lg]. trun.
  destruct (get_token (auth_env henv) p) as [t s|e s|s] eqn:Hg; trun.
  - tcrack;
      try (split; [reflexivity | cbn [exn_str RuntimeError]; apply prefix_app]).
    all: try (cbn in *; discriminate).
    all: split; [assumption|].
    all: do 4 eexists; repeat split; try eassumption; reflexivity.
  - split; [reflexivity | cbn [exn_str RuntimeError]; apply prefix_app].
  - eexists. split; reflexivity.
Qed.

(** X27.  [_api_call] calls the library function at most once, and only
    after both headers are set: [Proxy-Authorization] carries the identity
    token that [get_token] returned in this call, and [Authorization] a
    JWT that is not empty. *)
Theorem api_function_invoked_with_both_tokens henv api func args c :
  let R := Tools._api_call henv api func args c in
  Tools.invoked (res_state R) = Tools.invoked c
  \/ exists t s hdrs,
      get_token (auth_env henv) (Tools.token_provider c) = Returned t s
      /\ Tools.invoked (res_state R)
         = Tools.invoked c ++ [Tools.mkApiCall func args hdrs]
      /\ Tools.dict_find "Proxy-Authorization" hdrs
         = Some ("Bearer " ++ t)%string
      /\ PyVal.truthy (Tools._airflow_jwt_token (res_state R)) = true
      /\ Tools.dict_find "Authorization" hdrs
         = Some ("Bearer "
                 ++ PyVal.str (py_repr henv)
                      (Tools._airflow_jwt_token (res_state R)))%string.
Proof.
  destruct c as [host p ver user pw jwt hdrs snt inv lg]. cbv zeta. trun.
  destruct (get_token (auth_env henv) p) as [t s|e s|s] eqn:Hg; trun;
    try (left; reflexivity).
  tcrack; try (left; reflexivity).
  all: right; do 3 eexists; split; [reflexivity|]; split; [reflexivity|].
  all: rewrite ?dict_find_set_same;
    rewrite ?(dict_find_set_other "Proxy-Authorization" "Authorization")
      by reflexivity;
    rewrite ?dict_find_set_same.
  all: repeat split; trivial.
Qed.
